(** * org-roam-canvas: the Emacs bridge ([utils_emacs.py])

    A shallow embedding of [ask_emacs], [select_node] and
    [get_or_node_details], of the Python library functions they call
    ([str.split], [str.join], [str.format], [re.match] on the three prefix
    patterns, [pathlib.Path.parent]), of the file system the temporary file
    lives in (names and the files they stand for), and of the interleavings
    of threads that call [ask_emacs] under the module's [mutex]. *)

From Stdlib Require Import ZArith Ascii Strings.Byte.
From stdpp Require Import gmap strings list stringmap.

(** ** Python strings *)

Module Str.

(** The two characters the source writes with an escape. *)
Definition nl : ascii := "010"%char.
Definition dq : ascii := "034"%char.

Definition chr (c : ascii) : string := String c EmptyString.

(** [s.split(sep)] for a separator of one character: the pieces between the
    separators, in order; never the empty list. *)
Fixpoint split (sep : ascii) (s : string) : list string :=
  match s with
  | EmptyString => [EmptyString]
  | String c s' =>
      if Ascii.eqb c sep then EmptyString :: split sep s'
      else match split sep s' with
           | [] => [chr c]
           | l :: ls => String c l :: ls
           end
  end.

(** [sep.join(l)]. *)
Fixpoint join (sep : string) (l : list string) : string :=
  match l with
  | [] => EmptyString
  | [x] => x
  | x :: l' => x +:+ sep +:+ join sep l'
  end.

(** [s.startswith(p)], returning what follows the prefix. *)
Fixpoint strip_prefix (p s : string) : option string :=
  match p, s with
  | EmptyString, _ => Some s
  | String a p', String b s' =>
      if Ascii.eqb a b then strip_prefix p' s' else None
  | String _ _, EmptyString => None
  end.

(** The longest run [.*] matches from the start of [s]: [.] is any character
    but a newline. *)
Fixpoint dot_star (s : string) : string :=
  match s with
  | EmptyString => EmptyString
  | String c s' => if Ascii.eqb c nl then EmptyString else String c (dot_star s')
  end.

(** [re.match(prefix + "(.+)", s)], for a [prefix] of literal characters:
    [Some] of group 1 when the pattern matches at the start of [s], [None]
    when [re.match] returns [None]. *)
Definition re_match (prefix s : string) : option string :=
  match strip_prefix prefix s with
  | Some rest =>
      match dot_star rest with
      | EmptyString => None
      | g => Some g
      end
  | None => None
  end.

(** [c in s]. *)
Fixpoint contains (c : ascii) (s : string) : bool :=
  match s with
  | EmptyString => false
  | String a s' => Ascii.eqb a c || contains c s'
  end.

End Str.

(** ** Exceptions, outcomes and the world *)

Inductive exn : Type :=
  | HTTPException (status_code : Z) (detail : string)
  | IndexError
  | KeyError (key : string)
  | ValueError
  | UnicodeDecodeError
  | FileNotFoundError (filename : string)
  | OSError (msg : string).

(** What a call does: it returns, it raises, or it never comes back (a lock
    that is never released, a subprocess that never ends). *)
Inductive outcome (A : Type) : Type :=
  | Return (a : A)
  | Raise (e : exn)
  | Hang.

Arguments Return {A} a.
Arguments Raise {A} e.
Arguments Hang {A}.

(** ** [str.format] with keyword arguments *)

Module Fmt.

(** [template.format] with keyword arguments [kw], for replacement fields
    that are a plain name (no
    conversion, no format specification). The scanner is either in literal
    text or inside a replacement field whose name it has read so far. A
    doubled brace is a literal brace; the substituted value is copied as it
    is and not scanned again. *)
Fixpoint go (kw : gmap string string) (field : option string) (s : string)
  : outcome string :=
  match field, s with
  | None, EmptyString => Return EmptyString
  | Some _, EmptyString => Raise ValueError
  | Some name, String c s' =>
      if Ascii.eqb c "}" then
        match kw !! name with
        | None => Raise (KeyError name)
        | Some v =>
            match go kw None s' with
            | Return r => Return (v +:+ r)
            | e => e
            end
        end
      else go kw (Some (name +:+ Str.chr c)) s'
  | None, String c s' =>
      if Ascii.eqb c "{" then
        match s' with
        | String "{" s'' =>
            match go kw None s'' with
            | Return r => Return (String "{" r)
            | e => e
            end
        | _ => go kw (Some EmptyString) s'
        end
      else if Ascii.eqb c "}" then
        match s' with
        | String "}" s'' =>
            match go kw None s'' with
            | Return r => Return (String "}" r)
            | e => e
            end
        | _ => Raise ValueError
        end
      else
        match go kw None s' with
        | Return r => Return (String c r)
        | e => e
        end
  end.

Definition format (template : string) (kw : gmap string string) : outcome string :=
  go kw None template.

End Fmt.

(** ** [pathlib.Path] on a POSIX system *)

Module Pathlib.

(** A pure POSIX path: its root (empty, one slash or two) and the
    components after it; empty components and single dots are dropped when
    the path is built. *)
Record Path : Type := mkPath { root : string; tail : list string }.

Definition keep (c : string) : bool :=
  negb (String.eqb c "") && negb (String.eqb c ".").

Definition root_of (s : string) : string :=
  match s with
  | String "/" (String "/" (String "/" _)) => "/"
  | String "/" (String "/" _) => "//"
  | String "/" _ => "/"
  | _ => ""
  end.

Definition of_str (s : string) : Path :=
  {| root := root_of s; tail := List.filter keep (Str.split "/" s) |}.

(** [p.parent]: the path without its last component; a path with no
    component is its own parent. *)
Definition parent (p : Path) : Path :=
  match tail p with
  | [] => p
  | _ => {| root := root p; tail := removelast (tail p) |}
  end.

(** [str(p)]. *)
Definition to_str (p : Path) : string :=
  match root p, tail p with
  | EmptyString, [] => "."
  | r, l => r +:+ Str.join "/" l
  end.

End Pathlib.

(** ** The file system and the world a call runs in *)

(** The directory (names to inode numbers) and the content of each inode. A
    file a process holds open is its inode: the process reads it whatever
    has become of the name since. An inode the map does not hold is empty. *)
Record FS : Type := mkFS {
  names : gmap string nat;
  data : gmap nat (list byte)
}.

(** The bytes of an inode. *)
Definition content (fs : FS) (ino : nat) : list byte := default [] (data fs !! ino).

(** The bytes found under a name. *)
Definition read_name (fs : FS) (name : string) : option (list byte) :=
  content fs <$> names fs !! name.

(** An inode no name and no content uses. *)
Definition new_ino (fs : FS) : nat := fresh (map_img (names fs) ∪ dom (data fs) : gset nat).

(** A new, empty file under [name]. *)
Definition create (name : string) (fs : FS) : FS :=
  {| names := <[name := new_ino fs]> (names fs);
     data := <[new_ino fs := []]> (data fs) |}.

(** [os.unlink(name)] on a name that is there. The inode stays in [data]:
    a handle open on it still reads it, and once no name and no handle
    refer to it nothing does. *)
Definition unlink_name (name : string) (fs : FS) : FS :=
  {| names := delete name (names fs); data := data fs |}.

(** Writing a file in place: the inode under the name gets the bytes; a name
    that is not there is created. *)
Definition write_name (name : string) (bs : list byte) (fs : FS) : FS :=
  match names fs !! name with
  | Some ino => {| names := names fs; data := <[ino := bs]> (data fs) |}
  | None =>
      {| names := <[name := new_ino fs]> (names fs);
         data := <[new_ino fs := bs]> (data fs) |}
  end.

(** The file system, whether the module's [mutex] is held, and what
    [logging.error] has written. *)
Record World : Type := mkWorld {
  files : FS;
  mutex_locked : bool;
  error_log : list string
}.

Definition set_files (fs : FS) (w : World) : World :=
  {| files := fs; mutex_locked := mutex_locked w; error_log := error_log w |}.

Definition set_mutex (b : bool) (w : World) : World :=
  {| files := files w; mutex_locked := b; error_log := error_log w |}.

Definition add_log (msg : string) (w : World) : World :=
  {| files := files w; mutex_locked := mutex_locked w;
     error_log := error_log w ++ [msg] |}.

(** What [subprocess.run(..., capture_output=True, text=True)] returns. *)
Record CompletedProcess : Type := mkCompleted {
  returncode : Z;
  stdout : string;
  stderr : string
}.

(** What [tempfile.NamedTemporaryFile()] gives: the name of the file and
    the open handle on it. *)
Record TemporaryFile : Type := mkTmp {
  name : string;
  handle : nat
}.

(** A computation: from a world to an outcome and the world it leaves. *)
Definition M (A : Type) : Type := World -> outcome A * World.

Definition ret {A} (a : A) : M A := fun w => (Return a, w).

Definition raise {A} (e : exn) : M A := fun w => (Raise e, w).

Definition bind {A B} (m : M A) (k : A -> M B) : M B := fun w =>
  match m w with
  | (Return a, w') => k a w'
  | (Raise e, w') => (Raise e, w')
  | (Hang, w') => (Hang, w')
  end.

Notation "'do' x <- m ; k" := (bind m (fun x => k))
  (at level 10, x name, m at level 100, k at level 200).

(** [l[i]]: Python raises [IndexError] out of range. *)
Definition getitem {A} (l : list A) (i : nat) : M A :=
  match l !! i with
  | Some x => ret x
  | None => raise IndexError
  end.

(** [logging.error(msg)]. *)
Definition logging_error (msg : string) : M unit := fun w => (Return tt, add_log msg w).

(** [mutex.acquire()]: [None] while another thread holds the lock. *)
Definition acquire (w : World) : option World :=
  if mutex_locked w then None else Some (set_mutex true w).

(** [mutex.release()]. *)
Definition release (w : World) : World := set_mutex false w.

(** [with mutex: body]: blocks while the lock is held; releases it when the
    body returns or raises. *)
Definition with_mutex {A} (body : M A) : M A := fun w =>
  match acquire w with
  | None => (Hang, w)
  | Some w1 =>
      match body w1 with
      | (Hang, w') => (Hang, w')
      | (r, w') => (r, release w')
      end
  end.

(** ** The snippets *)

Definition ELISP_SN : string :=
"
(progn
  (org-roam-node-find)
  (let ((node (org-roam-node-at-point)))
    (format " +:+ Str.chr Str.dq +:+ "id:%s
title:%s
file:%s" +:+ Str.chr Str.dq +:+ " (org-roam-node-id node) (org-roam-node-title node) (org-roam-node-file node)))
)".

(** [ELISP_GND] is [GND_head], the replacement field [{node_id}], and
    [GND_tail]. *)
Definition GND_head : string :=
  "(let ((fnpos (org-roam-id-find " +:+ Str.chr Str.dq.

Definition GND_tail : string :=
  Str.chr Str.dq +:+ ")))
  (when fnpos
    (with-temp-buffer
      (insert-file-contents (car fnpos))
      (goto-char (cdr fnpos))
      (let* ((node (org-roam-node-at-point))
             (html (org-export-as 'html (org-at-heading-p) nil t)))
        (format " +:+ Str.chr Str.dq +:+ "title:%s
file:%s
%s" +:+ Str.chr Str.dq +:+ " (org-roam-node-title node) (org-roam-node-file node) html)
        ))))
".

Definition ELISP_GND : string := GND_head +:+ "{node_id}" +:+ GND_tail.

(** ** The functions of [utils_emacs.py] *)

Section Bridge.

(** [subprocess.run(cmd, capture_output=True, text=True)] on the external
    editor client: given the command line and the file system, it completes
    (with what the client wrote to stdout and stderr, decoded), raises (the
    client fails to start, or its output does not decode), or never ends,
    and leaves a file system. *)
Variable subprocess_run : list string -> FS -> outcome CompletedProcess * FS.

(** [bytes.decode("utf-8")]: [None] where Python raises
    [UnicodeDecodeError]. *)
Variable decode_utf8 : list byte -> option string.

(** The name [tempfile.NamedTemporaryFile] picks. *)
Variable tmp_name : FS -> string.

(** The collaborator [utils.rewrite_links(html, base_dir)]. *)
Variable rewrite_links : string -> Pathlib.Path -> string.

Definition run (cmd : list string) : M CompletedProcess := fun w =>
  let (r, fs) := subprocess_run cmd (files w) in (r, set_files fs w).

(** Entering [with tempfile.NamedTemporaryFile() as tmp]: the file is
    created empty under its name and stays open. *)
Definition tmp_open (w : World) : TemporaryFile * World :=
  ({| name := tmp_name (files w); handle := new_ino (files w) |},
   set_files (create (tmp_name (files w)) (files w)) w).

(** Leaving it, as CPython 3.11 does: the handle is closed and the name
    unlinked. When the name is no longer there the unlink raises
    [FileNotFoundError], in place of what the body returned or raised. *)
Definition tmp_exit {A} (tmp : TemporaryFile) (r : outcome A) (w : World)
  : outcome A * World :=
  match names (files w) !! name tmp with
  | Some _ => (r, set_files (unlink_name (name tmp) (files w)) w)
  | None => (Raise (FileNotFoundError (name tmp)), w)
  end.

Definition NamedTemporaryFile {A} (body : TemporaryFile -> M A) : M A := fun w =>
  let (tmp, w0) := tmp_open w in
  match body tmp w0 with
  | (Hang, w') => (Hang, w')
  | (r, w') => tmp_exit tmp r w'
  end.

(** [tmp.read()]: the bytes of the file the handle is open on, whatever its
    name stands for by now. *)
Definition tmp_read (tmp : TemporaryFile) : M (list byte) := fun w =>
  (Return (content (files w) (handle tmp)), w).

Definition decode (bs : list byte) : M string :=
  match decode_utf8 bs with
  | Some s => ret s
  | None => raise UnicodeDecodeError
  end.

(** The command line [ask_emacs] builds for the temporary file named
    [tmp]. *)
Definition command (elisp : string) (create_frame : bool) (tmp : string)
  : list string :=
  let cmd := ["emacsclient"] in
  let cmd := if create_frame then (cmd ++ ["-c"]) ++ ["--no-wait"] else cmd in
  cmd ++ ["--eval";
          "(write-region " +:+ elisp +:+ " nil " +:+ Str.chr Str.dq +:+ tmp
            +:+ Str.chr Str.dq +:+ ")"].

Definition ask_emacs (elisp : string) (create_frame : bool) : M string :=
  NamedTemporaryFile (fun tmp =>
    let cmd := command elisp create_frame (name tmp) in
    do ret_ <- with_mutex (run cmd);
    match stderr ret_ with
    | String _ _ => raise (HTTPException 404 (stderr ret_))
    | EmptyString => do bs <- tmp_read tmp; decode bs
    end).

(** Lines 101 to 115 of [select_node]: what it does with the output of
    [ask_emacs]. *)
Definition select_node_parse (output : string) : M (gmap string string) :=
  let lines := Str.split Str.nl output in
  do l0 <- getitem lines 0;
  do output_dict <-
    match Str.re_match "id:" l0 with
    | Some mo_i =>
        do l1 <- getitem lines 1;
        match Str.re_match "title:" l1 with
        | Some mo_t =>
            do l2 <- getitem lines 2;
            match Str.re_match "file:" l2 with
            | Some mo_f =>
                ret (Some (<["file" := mo_f]> (<["title" := mo_t]>
                             (<["id" := mo_i]> (∅ : gmap string string)))))
            | None => ret None
            end
        | None => ret None
        end
    | None => ret None
    end;
  match output_dict with
  | None => raise (HTTPException 404 "No node selected")
  | Some d => ret d
  end.

Definition select_node : M (gmap string string) :=
  do output <- ask_emacs ELISP_SN true;
  select_node_parse output.

(** Lines 157 to 175 of [get_or_node_details]. The function returns its
    dictionary, or Python's [None] where it falls off its end. *)
Definition details_parse (output : string) : M (option (gmap string string)) :=
  let lines := Str.split Str.nl output in
  let output_dict : gmap string string := ∅ in
  do l0 <- getitem lines 0;
  match Str.re_match "title:" l0 with
  | Some mo_t =>
      let output_dict := <["title" := mo_t]> output_dict in
      do l1 <- getitem lines 1;
      match Str.re_match "file:" l1 with
      | Some fn =>
          let output_dict := <["file" := fn]> output_dict in
          let html := Str.join (Str.chr Str.nl) (drop 2 lines) in
          let output_dict :=
            <["html" := rewrite_links html (Pathlib.parent (Pathlib.of_str fn))]>
              output_dict in
          ret (Some output_dict)
      | None => ret None
      end
  | None =>
      do _u <- logging_error ("Unable to parse output from emacsclient: " +:+ output);
      raise (HTTPException 404 "No node found")
  end.

Definition get_or_node_details (or_node_id : string)
  : M (option (gmap string string)) :=
  fun w =>
    match Fmt.format ELISP_GND {["node_id" := or_node_id]} with
    | Return elisp => (do output <- ask_emacs elisp false; details_parse output) w
    | Raise e => (Raise e, w)
    | Hang => (Hang, w)
    end.

End Bridge.

(** The same editor client, its exit code changed by [f]. *)
Definition with_returncode (f : Z -> Z)
    (subprocess_run : list string -> FS -> outcome CompletedProcess * FS)
    (cmd : list string) (fs : FS) : outcome CompletedProcess * FS :=
  match subprocess_run cmd fs with
  | (Return cp, fs') =>
      (Return {| returncode := f (returncode cp); stdout := stdout cp;
                 stderr := stderr cp |}, fs')
  | other => other
  end.

(** ** Threads calling [ask_emacs]

    The request handlers run in several threads. A thread that has called
    [ask_emacs] is at one of the places below; one step takes it to the
    next, by the same operations [ask_emacs] is made of. The subprocess runs
    between [Running] and [Leaving]: its effect on the files is taken at the
    step where it ends. *)

Module Threads.

Inductive pc : Type :=
  | Called (elisp : string) (create_frame : bool)
      (* entered [ask_emacs]; the temporary file is not yet made *)
  | AtLock (tmp : TemporaryFile) (cmd : list string)
      (* at [with mutex:], the lock not yet acquired *)
  | Running (tmp : TemporaryFile) (cmd : list string)
      (* inside [with mutex:], in [subprocess.run] *)
  | Leaving (tmp : TemporaryFile) (r : outcome CompletedProcess)
      (* [subprocess.run] has returned or raised; the lock not yet released *)
  | Checking (tmp : TemporaryFile) (r : outcome CompletedProcess)
      (* after [with mutex:], before [if ret.stderr] *)
  | Finished (r : outcome string).
      (* left [ask_emacs]: returned or raised *)

(** The thread is inside [with mutex:]. *)
Definition holds (p : pc) : bool :=
  match p with
  | Running _ _ | Leaving _ _ => true
  | _ => false
  end.

Definition in_flight (p : pc) : bool :=
  match p with
  | Running _ _ => true
  | _ => false
  end.

Definition finished (p : pc) : bool :=
  match p with
  | Finished _ => true
  | _ => false
  end.

Definition called (p : pc) : bool :=
  match p with
  | Called _ _ => true
  | _ => false
  end.

Section Pool.

Variable subprocess_run : list string -> FS -> outcome CompletedProcess * FS.
Variable decode_utf8 : list byte -> option string.
Variable tmp_name : FS -> string.

(** One step of a thread, [None] when it cannot move: it waits for the
    lock, its subprocess never ends, or it has left [ask_emacs]. *)
Definition thread_step (w : World) (p : pc) : option (World * pc) :=
  match p with
  | Called elisp create_frame =>
      let (tmp, w') := tmp_open tmp_name w in
      Some (w', AtLock tmp (command elisp create_frame (name tmp)))
  | AtLock tmp cmd =>
      match acquire w with
      | None => None
      | Some w' => Some (w', Running tmp cmd)
      end
  | Running tmp cmd =>
      match run subprocess_run cmd w with
      | (Hang, _) => None
      | (r, w') => Some (w', Leaving tmp r)
      end
  | Leaving tmp r => Some (release w, Checking tmp r)
  | Checking tmp r =>
      let rest : M string :=
        match r with
        | Return ret_ =>
            match stderr ret_ with
            | String _ _ => raise (HTTPException 404 (stderr ret_))
            | EmptyString => do bs <- tmp_read tmp; decode decode_utf8 bs
            end
        | Raise e => raise e
        | Hang => fun w => (Hang, w)
        end in
      let (out, w') := rest w in
      let (out', w'') := tmp_exit tmp out w' in
      Some (w'', Finished out')
  | Finished _ => None
  end.

(** One step of the program: some thread of the pool moves. *)
Inductive pool_step : World * list pc -> World * list pc -> Prop :=
  | step_thread w pool i p w' p' :
      pool !! i = Some p ->
      thread_step w p = Some (w', p') ->
      pool_step (w, pool) (w', <[i := p']> pool).

(** The states the program reaches from [s]. *)
Definition reaches (s s' : World * list pc) : Prop := rtc pool_step s s'.

(** The threads inside [with mutex:]. *)
Definition holders (pool : list pc) : nat := length (List.filter holds pool).

(** The lock is held exactly when one thread is inside [with mutex:]. *)
Definition lock_inv (s : World * list pc) : Prop :=
  holders (snd s) = Nat.b2n (mutex_locked (fst s)).

(** [n] steps of a thread that runs alone. *)
Fixpoint solo (n : nat) (w : World) (p : pc) : World * pc :=
  match n with
  | O => (w, p)
  | S n' =>
      match thread_step w p with
      | Some (w', p') => solo n' w' p'
      | None => (w, p)
      end
  end.

(** The program under a schedule: the threads named, one step each, in
    order; a thread that cannot move is passed over. *)
Fixpoint run_schedule (sched : list nat) (s : World * list pc) : World * list pc :=
  match sched with
  | [] => s
  | i :: sched' =>
      match snd s !! i with
      | Some p =>
          match thread_step (fst s) p with
          | Some (w', p') => run_schedule sched' (w', <[i := p']> (snd s))
          | None => run_schedule sched' s
          end
      | None => run_schedule sched' s
      end
  end.

End Pool.

(** The temporary file a thread has made and not yet left behind. *)
Definition live_tmp (p : pc) : option string :=
  match p with
  | AtLock tmp _ | Running tmp _ | Leaving tmp _ | Checking tmp _ => Some (name tmp)
  | Called _ _ | Finished _ => None
  end.

(** Every call in progress has its temporary file on disk, and no two of
    them have the same one. *)
Definition tmp_inv (s : World * list pc) : Prop :=
  (forall i p tmp, snd s !! i = Some p -> live_tmp p = Some tmp ->
     is_Some (names (files (fst s)) !! tmp))
  /\ (forall i j p q tmp, snd s !! i = Some p -> snd s !! j = Some q ->
        live_tmp p = Some tmp -> live_tmp q = Some tmp -> i = j).

End Threads.

(** ** Stand-in editors, for running the functions

    A temporary-file namer that picks a name no file has; editor clients
    that complete with exit code 0 and write [err] to stderr: one writes
    [content] in place to the file its [--eval] argument names, one puts a
    new file with [content] in its place, one removes it; a decoder for the
    ASCII part of UTF-8; a link rewriter that puts the base directory in
    front of the HTML. *)

Module Demo.

Definition tmp_name (fs : FS) : string :=
  fresh_string_of_set "/tmp/tmp" (dom (names fs)).

Fixpoint until_dq (l : list ascii) : list ascii :=
  match l with
  | [] => []
  | c :: l' => if Ascii.eqb c Str.dq then [] else c :: until_dq l'
  end.

Fixpoint after_dq (l : list ascii) : list ascii :=
  match l with
  | [] => []
  | c :: l' => if Ascii.eqb c Str.dq then l' else after_dq l'
  end.

(** The file name in [(write-region ... nil "NAME")]: what stands between
    the last two double quotes. *)
Definition target (cmd : list string) : string :=
  match last cmd with
  | Some arg =>
      String.string_of_list_ascii
        (rev (until_dq (after_dq (rev (String.list_ascii_of_string arg)))))
  | None => ""
  end.

Definition completed (err : string) : CompletedProcess :=
  {| returncode := 0; stdout := ""; stderr := err |}.

Definition editor (content err : string) (cmd : list string) (fs : FS)
  : outcome CompletedProcess * FS :=
  (Return (completed err),
   write_name (target cmd) (String.list_byte_of_string content) fs).

Definition replacer (content err : string) (cmd : list string) (fs : FS)
  : outcome CompletedProcess * FS :=
  (Return (completed err),
   write_name (target cmd) (String.list_byte_of_string content)
     (unlink_name (target cmd) fs)).

Definition remover (err : string) (cmd : list string) (fs : FS)
  : outcome CompletedProcess * FS :=
  (Return (completed err), unlink_name (target cmd) fs).

Definition decode_ascii (bs : list byte) : option string :=
  if forallb (fun b => N.ltb (Byte.to_N b) 128) bs
  then Some (String.string_of_list_byte bs)
  else None.

Definition rewrite_links (html : string) (base_dir : Pathlib.Path) : string :=
  "<base href=" +:+ Pathlib.to_str base_dir +:+ ">" +:+ html.

Definition world : World :=
  {| files := {| names := ∅; data := ∅ |}; mutex_locked := false; error_log := [] |}.

(** The world a call from [world] leaves when the editor wrote [content]:
    no name, and the closed file's bytes. *)
Definition left (content : string) : World :=
  {| files := {| names := ∅; data := {[0 := String.list_byte_of_string content]} |};
     mutex_locked := false; error_log := [] |}.

End Demo.

(** Unfolding a parser down to its lookups and matches. *)
Ltac unfold_parse :=
  unfold select_node_parse, details_parse, getitem, bind, ret, raise, logging_error.


(** * Properties *)

(** ** Strings *)

Module StrFacts.
Import Str.

Lemma split_not_nil sep s : split sep s <> [].
Proof.
  destruct s as [|c s]; simpl; [discriminate|].
  destruct (Ascii.eqb c sep); [discriminate|].
  destruct (split sep s); discriminate.
Qed.

Lemma split_head sep s : exists l ls, split sep s = l :: ls.
Proof.
  destruct (split sep s) as [|l ls] eqn:E; [|eauto].
  exfalso; exact (split_not_nil _ _ E).
Qed.

Lemma lookup_split_0 sep s : is_Some (split sep s !! 0).
Proof. destruct (split_head sep s) as (l & ls & ->). simpl. eauto. Qed.

Lemma join_cons sep x y l :
  join sep (x :: y :: l) = x +:+ sep +:+ join sep (y :: l).
Proof. reflexivity. Qed.

Lemma join_cons_char sep c x l :
  join sep (String c x :: l) = String c (join sep (x :: l)).
Proof. destruct l; reflexivity. Qed.

(** Joining the pieces with the separator gives the string back. *)
Lemma join_split sep s : join (chr sep) (split sep s) = s.
Proof.
  induction s as [|c s IH]; simpl; [reflexivity|].
  destruct (Ascii.eqb_spec c sep) as [->|Hne].
  - destruct (split_head sep s) as (l & ls & E). rewrite E in *.
    rewrite join_cons, IH. reflexivity.
  - destruct (split_head sep s) as (l & ls & E). rewrite E in *.
    rewrite join_cons_char. now rewrite IH.
Qed.

(** No piece holds the separator. *)
Lemma split_pieces sep s : Forall (fun l => contains sep l = false) (split sep s).
Proof.
  induction s as [|c s IH]; simpl.
  - constructor; [reflexivity|constructor].
  - destruct (Ascii.eqb c sep) eqn:Ec.
    + constructor; [reflexivity|assumption].
    + destruct (split sep s) as [|l ls]; inversion IH; subst;
        constructor; simpl; rewrite ?Ec; auto.
Qed.

Lemma split_lookup_clean sep s i l :
  split sep s !! i = Some l -> contains sep l = false.
Proof.
  intros H. pose proof (split_pieces sep s) as F.
  rewrite Forall_lookup in F. exact (F _ _ H).
Qed.

(** A piece free of the separator, then the separator, then the rest. *)
Lemma split_app sep a rest :
  contains sep a = false ->
  split sep (a +:+ String sep rest) = a :: split sep rest.
Proof.
  induction a as [|c a IH]; simpl; intros H.
  - now rewrite Ascii.eqb_refl.
  - apply orb_false_iff in H as [Hc Ha]. rewrite Hc, (IH Ha). reflexivity.
Qed.

Lemma dot_star_clean s : contains nl s = false -> dot_star s = s.
Proof.
  induction s as [|c s IH]; simpl; [reflexivity|].
  intros H. apply orb_false_iff in H as [Hc Hs]. rewrite Hc, (IH Hs). reflexivity.
Qed.

Lemma strip_prefix_app p s : strip_prefix p (p +:+ s) = Some s.
Proof.
  induction p as [|c p IH]; simpl; [reflexivity|].
  now rewrite Ascii.eqb_refl.
Qed.

Lemma strip_prefix_inv p s rest : strip_prefix p s = Some rest -> s = p +:+ rest.
Proof.
  revert s; induction p as [|c p IH]; simpl; intros s H.
  - destruct s; simpl in H; injection H as <-; reflexivity.
  - destruct s as [|b s]; [discriminate|].
    destruct (Ascii.eqb_spec c b) as [->|]; [|discriminate].
    now rewrite (IH _ H).
Qed.

(** Group 1 is never empty: [(.+)] needs a character. *)
Lemma re_match_nonempty p s g : re_match p s = Some g -> g <> EmptyString.
Proof.
  unfold re_match. destruct (strip_prefix p s); [|discriminate].
  destruct (dot_star s0); [discriminate|]. intros [= <-]. discriminate.
Qed.

(** A line that is the bare prefix does not match. *)
Lemma re_match_bare p : re_match p p = None.
Proof.
  unfold re_match. replace (strip_prefix p p) with (Some EmptyString); [reflexivity|].
  symmetry. induction p as [|c p IH]; simpl; [reflexivity|].
  now rewrite Ascii.eqb_refl.
Qed.

(** On a line with no newline, a match captures all that follows the prefix. *)
Lemma re_match_line p g :
  contains nl g = false -> g <> EmptyString -> re_match p (p +:+ g) = Some g.
Proof.
  intros Hc Hg. unfold re_match. rewrite strip_prefix_app, (dot_star_clean _ Hc).
  destruct g; congruence.
Qed.

Lemma contains_app c a b : contains c (a +:+ b) = contains c a || contains c b.
Proof.
  induction a as [|x a IH]; simpl; [reflexivity|]. now rewrite IH, orb_assoc.
Qed.

Lemma re_match_line_inv p l g :
  contains nl l = false -> re_match p l = Some g ->
  l = p +:+ g /\ g <> EmptyString /\ contains nl g = false.
Proof.
  intros Hc H. pose proof (re_match_nonempty _ _ _ H) as Hg.
  unfold re_match in H. destruct (strip_prefix p l) as [rest|] eqn:E; [|discriminate].
  apply strip_prefix_inv in E. subst l.
  rewrite contains_app in Hc. apply orb_false_iff in Hc as [_ Hr].
  rewrite (dot_star_clean _ Hr) in H.
  destruct rest; [discriminate|]. injection H as <-. auto.
Qed.

End StrFacts.

(** ** The editor bridge: [ask_emacs] *)

Section BridgeFacts.

Variable subprocess_run : list string -> FS -> outcome CompletedProcess * FS.
Variable decode_utf8 : list byte -> option string.
Variable tmp_name : FS -> string.

Local Abbreviation ask := (ask_emacs subprocess_run decode_utf8 tmp_name).
Local Abbreviation tmp_of w :=
  {| name := tmp_name (files w); handle := new_ino (files w) |}.
Local Abbreviation started w := (create (tmp_name (files w)) (files w)).

(** [ask_emacs] from a world where the lock is free, by what the subprocess
    does. *)
Lemma ask_emacs_eq elisp create_frame w :
  mutex_locked w = false ->
  ask elisp create_frame w =
    match subprocess_run (command elisp create_frame (tmp_name (files w)))
                         (started w) with
    | (Return cp, fs) =>
        tmp_exit (tmp_of w)
          (match stderr cp with
           | String _ _ => Raise (HTTPException 404 (stderr cp))
           | EmptyString =>
               match decode_utf8 (content fs (new_ino (files w))) with
               | Some s => Return s
               | None => Raise UnicodeDecodeError
               end
           end)
          (mkWorld fs false (error_log w))
    | (Raise e, fs) => tmp_exit (tmp_of w) (Raise e) (mkWorld fs false (error_log w))
    | (Hang, fs) => (Hang, mkWorld fs true (error_log w))
    end.
Proof.
  intros Hfree.
  unfold ask_emacs, NamedTemporaryFile, tmp_open, bind, with_mutex, acquire, run.
  cbn [files mutex_locked error_log set_files set_mutex name handle].
  rewrite Hfree.
  destruct (subprocess_run _ _) as [[cp|e|] fs]; cbn; [|reflexivity..].
  destruct (stderr cp) eqn:Herr; cbn; [|reflexivity].
  unfold decode. destruct (decode_utf8 _); reflexivity.
Qed.

(** A caller that finds the lock held never comes back: it has made its
    temporary file and waits; the subprocess is not started. *)
Lemma ask_emacs_locked elisp create_frame w :
  mutex_locked w = true ->
  ask elisp create_frame w = (Hang, set_files (started w) w).
Proof.
  intros Hl. unfold ask_emacs, NamedTemporaryFile, tmp_open, bind, with_mutex, acquire.
  cbn [files mutex_locked set_files]. rewrite Hl. reflexivity.
Qed.

Lemma tmp_exit_names {A} tmp (r : outcome A) w :
  names (files (snd (tmp_exit tmp r w))) !! name tmp = None.
Proof.
  unfold tmp_exit. destruct (names (files w) !! name tmp) eqn:E; cbn.
  - apply lookup_delete_eq.
  - exact E.
Qed.

Lemma tmp_exit_lock {A} tmp (r : outcome A) w :
  mutex_locked (snd (tmp_exit tmp r w)) = mutex_locked w
  /\ error_log (snd (tmp_exit tmp r w)) = error_log w.
Proof. unfold tmp_exit. destruct (names (files w) !! name tmp); auto. Qed.

Lemma tmp_exit_not_hang {A} tmp (r : outcome A) w :
  r <> Hang -> fst (tmp_exit tmp r w) <> Hang.
Proof.
  unfold tmp_exit. destruct (names (files w) !! name tmp); cbn; [auto|discriminate].
Qed.

(** Whenever [ask_emacs] comes back, the temporary file is gone. *)
Lemma ask_emacs_cleans elisp create_frame w r w' :
  ask elisp create_frame w = (r, w') -> r <> Hang ->
  names (files w') !! tmp_name (files w) = None.
Proof.
  intros H Hr. destruct (mutex_locked w) eqn:Hl.
  - rewrite (ask_emacs_locked _ _ _ Hl) in H. injection H as <- _. contradiction.
  - rewrite (ask_emacs_eq _ _ _ Hl) in H.
    destruct (subprocess_run _ _) as [[cp|e|] fs].
    + apply (f_equal snd) in H. cbn [snd] in H. rewrite <- H.
      apply (tmp_exit_names (tmp_of w)).
    + apply (f_equal snd) in H. cbn [snd] in H. rewrite <- H.
      apply (tmp_exit_names (tmp_of w)).
    + injection H as <- _. contradiction.
Qed.

(** Whenever [ask_emacs] comes back, the lock is free again. *)
Lemma ask_emacs_releases elisp create_frame w r w' :
  ask elisp create_frame w = (r, w') -> r <> Hang -> mutex_locked w' = false.
Proof.
  intros H Hr. destruct (mutex_locked w) eqn:Hl.
  - rewrite (ask_emacs_locked _ _ _ Hl) in H. injection H as <- _. contradiction.
  - rewrite (ask_emacs_eq _ _ _ Hl) in H.
    destruct (subprocess_run _ _) as [[cp|e|] fs].
    + apply (f_equal snd) in H. cbn [snd] in H. rewrite <- H.
      apply tmp_exit_lock.
    + apply (f_equal snd) in H. cbn [snd] in H. rewrite <- H.
      apply tmp_exit_lock.
    + injection H as <- _. contradiction.
Qed.

(** While the subprocess runs the lock is held: a subprocess that never
    ends leaves it so. *)
Lemma ask_emacs_hangs_holding elisp create_frame w :
  mutex_locked w = false ->
  fst (subprocess_run (command elisp create_frame (tmp_name (files w)))
                      (started w)) = Hang ->
  fst (ask elisp create_frame w) = Hang
  /\ mutex_locked (snd (ask elisp create_frame w)) = true.
Proof.
  intros Hfree Hrun. rewrite (ask_emacs_eq _ _ _ Hfree).
  destruct (subprocess_run _ _) as [[cp|e|] fs]; try discriminate. auto.
Qed.

(** C3. Whenever [ask_emacs] returns a string, the subprocess completed
    with nothing on stderr and the string is the content of the temporary
    file, as the subprocess left it, decoded as UTF-8. It does return it
    when the lock is free, the subprocess completes with nothing on stderr,
    the file's name is still there and the bytes are UTF-8; for a subprocess
    that wrote the file in place these are the bytes found under the name.
    And whenever [ask_emacs] returns or raises, the name of the temporary
    file is gone. *)
Theorem ask_emacs_returns_file_content elisp create_frame w :
  (forall s w',
     ask elisp create_frame w = (Return s, w') ->
     exists cp fs,
       subprocess_run (command elisp create_frame (tmp_name (files w)))
                      (started w) = (Return cp, fs)
       /\ stderr cp = EmptyString
       /\ decode_utf8 (content fs (new_ino (files w))) = Some s
       /\ w' = mkWorld (unlink_name (tmp_name (files w)) fs) false (error_log w))
  /\ (forall cp fs s,
        mutex_locked w = false ->
        subprocess_run (command elisp create_frame (tmp_name (files w)))
                       (started w) = (Return cp, fs) ->
        stderr cp = EmptyString ->
        is_Some (names fs !! tmp_name (files w)) ->
        decode_utf8 (content fs (new_ino (files w))) = Some s ->
        ask elisp create_frame w
        = (Return s, mkWorld (unlink_name (tmp_name (files w)) fs) false (error_log w)))
  /\ (forall cp fs bs s,
        mutex_locked w = false ->
        subprocess_run (command elisp create_frame (tmp_name (files w)))
                       (started w) = (Return cp, fs) ->
        stderr cp = EmptyString ->
        names fs !! tmp_name (files w) = Some (new_ino (files w)) ->
        read_name fs (tmp_name (files w)) = Some bs ->
        decode_utf8 bs = Some s ->
        fst (ask elisp create_frame w) = Return s)
  /\ (forall r w',
        ask elisp create_frame w = (r, w') -> r <> Hang ->
        names (files w') !! tmp_name (files w) = None).
Proof.
  assert (forall cp fs s,
            mutex_locked w = false ->
            subprocess_run (command elisp create_frame (tmp_name (files w)))
                           (started w) = (Return cp, fs) ->
            stderr cp = EmptyString ->
            is_Some (names fs !! tmp_name (files w)) ->
            decode_utf8 (content fs (new_ino (files w))) = Some s ->
            ask elisp create_frame w
            = (Return s, mkWorld (unlink_name (tmp_name (files w)) fs) false
                           (error_log w))) as Hfwd.
  { intros cp fs s Hfree Hrun Herr [ino Hname] Hdec.
    rewrite (ask_emacs_eq _ _ _ Hfree), Hrun, Herr, Hdec.
    unfold tmp_exit. cbn [files name]. rewrite Hname. reflexivity. }
  split; [|split; [exact Hfwd|split]].
  - intros s w' H. destruct (mutex_locked w) eqn:Hl.
    { rewrite (ask_emacs_locked _ _ _ Hl) in H. discriminate. }
    rewrite (ask_emacs_eq _ _ _ Hl) in H.
    destruct (subprocess_run _ _) as [[cp|e|] fs]; unfold tmp_exit in H;
      cbn [files name] in H; try discriminate.
    + exists cp, fs. split; [reflexivity|].
      destruct (names fs !! tmp_name (files w)); [|discriminate].
      destruct (stderr cp); [|discriminate].
      destruct (decode_utf8 _); [|discriminate].
      injection H as <- <-. auto.
    + destruct (names fs !! tmp_name (files w)); discriminate.
  - intros cp fs bs s Hfree Hrun Herr Hname Hread Hdec.
    unfold read_name in Hread. rewrite Hname in Hread. injection Hread as <-.
    rewrite (Hfwd cp fs s Hfree Hrun Herr (mk_is_Some _ _ Hname) Hdec). reflexivity.
  - intros r w'. apply ask_emacs_cleans.
Qed.

(** When the subprocess completes and the name of the temporary file is
    still there, an [HTTPException] is raised exactly when stderr is not
    empty. *)
Lemma ask_emacs_stderr elisp create_frame w cp fs :
  mutex_locked w = false ->
  subprocess_run (command elisp create_frame (tmp_name (files w)))
                 (started w) = (Return cp, fs) ->
  is_Some (names fs !! tmp_name (files w)) ->
  ((exists code detail, fst (ask elisp create_frame w) = Raise (HTTPException code detail))
   <-> stderr cp <> EmptyString)
  /\ (stderr cp <> EmptyString ->
      ask elisp create_frame w
      = (Raise (HTTPException 404 (stderr cp)),
         mkWorld (unlink_name (tmp_name (files w)) fs) false (error_log w))).
Proof.
  intros Hfree Hrun [ino Hname].
  pose proof (ask_emacs_eq elisp create_frame w Hfree) as E.
  rewrite Hrun in E. unfold tmp_exit in E. cbn [files name] in E.
  rewrite Hname in E. rewrite E. cbn [fst].
  split; [split|].
  - intros (code & detail & H) Herr. rewrite Herr in H.
    destruct (decode_utf8 _); discriminate.
  - intros H. destruct (stderr cp); [contradiction|eauto].
  - intros H. destruct (stderr cp); [contradiction|reflexivity].
Qed.

(** When the subprocess has removed the name of the temporary file,
    leaving the [with] block raises, whatever was on stderr. *)
Lemma ask_emacs_name_removed elisp create_frame w r fs :
  mutex_locked w = false ->
  subprocess_run (command elisp create_frame (tmp_name (files w)))
                 (started w) = (r, fs) ->
  r <> Hang ->
  names fs !! tmp_name (files w) = None ->
  ask elisp create_frame w
  = (Raise (FileNotFoundError (tmp_name (files w))), mkWorld fs false (error_log w)).
Proof.
  intros Hfree Hrun Hr Hname.
  rewrite (ask_emacs_eq _ _ _ Hfree), Hrun.
  destruct r as [cp|e|]; [| |contradiction]; unfold tmp_exit; cbn [files name];
    now rewrite Hname.
Qed.

End BridgeFacts.

(** The exit code plays no part in [ask_emacs]. *)
Lemma ask_emacs_ignores_returncode f subprocess_run decode_utf8 tmp_name
    elisp create_frame w :
  ask_emacs (with_returncode f subprocess_run) decode_utf8 tmp_name
            elisp create_frame w
  = ask_emacs subprocess_run decode_utf8 tmp_name elisp create_frame w.
Proof.
  unfold ask_emacs, NamedTemporaryFile, tmp_open, bind, with_mutex, acquire, run,
    with_returncode.
  cbn [files mutex_locked set_files set_mutex name].
  destruct (mutex_locked w); [reflexivity|].
  destruct (subprocess_run _ _) as [[cp|e|] fs]; reflexivity.
Qed.

(** C4, as amended. When the subprocess completes and leaves the name of
    the temporary file in place, [ask_emacs] raises an [HTTPException]
    exactly when stderr is not empty; the exception then has status 404 and
    the stderr text as detail, and the world it leaves has no temporary file
    and a free lock. Changing the exit code of the subprocess changes
    nothing. When the subprocess has removed the name, [FileNotFoundError]
    is raised instead, whatever stderr holds. *)
Theorem ask_emacs_fails_iff_stderr subprocess_run decode_utf8 tmp_name
    elisp create_frame w cp fs :
  mutex_locked w = false ->
  subprocess_run (command elisp create_frame (tmp_name (files w)))
                 (create (tmp_name (files w)) (files w)) = (Return cp, fs) ->
  (is_Some (names fs !! tmp_name (files w)) ->
   ((exists code detail,
        fst (ask_emacs subprocess_run decode_utf8 tmp_name elisp create_frame w)
        = Raise (HTTPException code detail))
    <-> stderr cp <> EmptyString)
   /\ (stderr cp <> EmptyString ->
       ask_emacs subprocess_run decode_utf8 tmp_name elisp create_frame w
       = (Raise (HTTPException 404 (stderr cp)),
          mkWorld (unlink_name (tmp_name (files w)) fs) false (error_log w))))
  /\ (names fs !! tmp_name (files w) = None ->
      ask_emacs subprocess_run decode_utf8 tmp_name elisp create_frame w
      = (Raise (FileNotFoundError (tmp_name (files w))),
         mkWorld fs false (error_log w)))
  /\ names (files (snd (ask_emacs subprocess_run decode_utf8 tmp_name
                          elisp create_frame w)))
       !! tmp_name (files w) = None
  /\ (forall f,
        ask_emacs (with_returncode f subprocess_run) decode_utf8 tmp_name
                  elisp create_frame w
        = ask_emacs subprocess_run decode_utf8 tmp_name elisp create_frame w).
Proof.
  intros Hfree Hrun. split; [|split; [|split]].
  - intros Hname. exact (ask_emacs_stderr _ _ _ _ _ _ _ _ Hfree Hrun Hname).
  - intros Hname.
    apply (ask_emacs_name_removed _ _ _ _ _ _ (Return cp) fs Hfree Hrun);
      [discriminate|assumption].
  - destruct (ask_emacs subprocess_run decode_utf8 tmp_name elisp create_frame w)
      as [r w'] eqn:E. cbn [snd].
    apply (ask_emacs_cleans _ _ _ _ _ _ _ _ E).
    rewrite (ask_emacs_eq _ _ _ _ _ _ Hfree), Hrun in E.
    intros ->. apply (f_equal fst) in E. cbn [fst] in E.
    revert E. apply tmp_exit_not_hang.
    destruct (stderr cp); [destruct (decode_utf8 _)|]; discriminate.
  - intros f. apply ask_emacs_ignores_returncode.
Qed.

(** ** The format template *)

Lemma format_ELISP_GND or_node_id :
  Fmt.format ELISP_GND {["node_id" := or_node_id]}
  = Return (GND_head +:+ or_node_id +:+ GND_tail).
Proof. vm_compute. reflexivity. Qed.

(** ** The two parsers *)

Section ParserFacts.

Variable subprocess_run : list string -> FS -> outcome CompletedProcess * FS.
Variable decode_utf8 : list byte -> option string.
Variable tmp_name : FS -> string.
Variable rewrite_links : string -> Pathlib.Path -> string.

Local Abbreviation ask := (ask_emacs subprocess_run decode_utf8 tmp_name).
Local Abbreviation select := (select_node subprocess_run decode_utf8 tmp_name).
Local Abbreviation details :=
  (get_or_node_details subprocess_run decode_utf8 tmp_name rewrite_links).
Local Abbreviation lines_of := (Str.split Str.nl).

(** [select_node] is its parser on what the bridge returned. *)
Lemma select_node_eq w w' output :
  ask ELISP_SN true w = (Return output, w') ->
  select w = select_node_parse output w'.
Proof. intros H. unfold select_node, bind. now rewrite H. Qed.

(** [get_or_node_details] is its parser on what the bridge returned for the
    snippet with the node id in it. *)
Lemma details_eq or_node_id w w' output :
  ask (GND_head +:+ or_node_id +:+ GND_tail) false w = (Return output, w') ->
  details or_node_id w = details_parse rewrite_links output w'.
Proof.
  intros H. unfold get_or_node_details. rewrite format_ELISP_GND.
  unfold bind. now rewrite H.
Qed.

(** [select_node]'s parser, case by case. *)
Lemma select_node_parse_match output w l0 l1 l2 i t f :
  lines_of output !! 0 = Some l0 -> Str.re_match "id:" l0 = Some i ->
  lines_of output !! 1 = Some l1 -> Str.re_match "title:" l1 = Some t ->
  lines_of output !! 2 = Some l2 -> Str.re_match "file:" l2 = Some f ->
  select_node_parse output w
  = (Return (<["file" := f]> (<["title" := t]> (<["id" := i]> ∅))), w).
Proof.
  intros H0 M0 H1 M1 H2 M2. unfold_parse.
  now rewrite H0, M0, H1, M1, H2, M2.
Qed.

Lemma select_node_parse_no_id output w l0 :
  lines_of output !! 0 = Some l0 -> Str.re_match "id:" l0 = None ->
  select_node_parse output w = (Raise (HTTPException 404 "No node selected"), w).
Proof. intros H0 M0. unfold_parse. now rewrite H0, M0. Qed.

Lemma select_node_parse_no_title output w l0 i l1 :
  lines_of output !! 0 = Some l0 -> Str.re_match "id:" l0 = Some i ->
  lines_of output !! 1 = Some l1 -> Str.re_match "title:" l1 = None ->
  select_node_parse output w = (Raise (HTTPException 404 "No node selected"), w).
Proof. intros H0 M0 H1 M1. unfold_parse. now rewrite H0, M0, H1, M1. Qed.

Lemma select_node_parse_no_file output w l0 i l1 t l2 :
  lines_of output !! 0 = Some l0 -> Str.re_match "id:" l0 = Some i ->
  lines_of output !! 1 = Some l1 -> Str.re_match "title:" l1 = Some t ->
  lines_of output !! 2 = Some l2 -> Str.re_match "file:" l2 = None ->
  select_node_parse output w = (Raise (HTTPException 404 "No node selected"), w).
Proof.
  intros H0 M0 H1 M1 H2 M2. unfold_parse. now rewrite H0, M0, H1, M1, H2, M2.
Qed.

Lemma select_node_parse_one_line output w l0 i :
  lines_of output !! 0 = Some l0 -> Str.re_match "id:" l0 = Some i ->
  lines_of output !! 1 = None ->
  select_node_parse output w = (Raise IndexError, w).
Proof. intros H0 M0 H1. unfold_parse. now rewrite H0, M0, H1. Qed.

Lemma select_node_parse_two_lines output w l0 i l1 t :
  lines_of output !! 0 = Some l0 -> Str.re_match "id:" l0 = Some i ->
  lines_of output !! 1 = Some l1 -> Str.re_match "title:" l1 = Some t ->
  lines_of output !! 2 = None ->
  select_node_parse output w = (Raise IndexError, w).
Proof. intros H0 M0 H1 M1 H2. unfold_parse. now rewrite H0, M0, H1, M1, H2. Qed.

(** The parser never touches the world, and a result it returns has its
    three fields, none of them empty. *)
Lemma select_node_parse_world output w : snd (select_node_parse output w) = w.
Proof.
  unfold_parse.
  destruct (lines_of output !! 0) as [l0|]; [|reflexivity].
  destruct (Str.re_match "id:" l0); [|reflexivity].
  destruct (lines_of output !! 1) as [l1|]; [|reflexivity].
  destruct (Str.re_match "title:" l1); [|reflexivity].
  destruct (lines_of output !! 2) as [l2|]; [|reflexivity].
  destruct (Str.re_match "file:" l2); reflexivity.
Qed.

Lemma select_node_parse_inv output w d w' :
  select_node_parse output w = (Return d, w') ->
  exists l0 l1 l2 i t f,
    lines_of output !! 0 = Some l0 /\ Str.re_match "id:" l0 = Some i /\
    lines_of output !! 1 = Some l1 /\ Str.re_match "title:" l1 = Some t /\
    lines_of output !! 2 = Some l2 /\ Str.re_match "file:" l2 = Some f /\
    d = <["file" := f]> (<["title" := t]> (<["id" := i]> ∅)).
Proof.
  unfold_parse.
  destruct (lines_of output !! 0) as [l0|]; [|discriminate].
  destruct (Str.re_match "id:" l0) as [i|] eqn:M0; [|discriminate].
  destruct (lines_of output !! 1) as [l1|]; [|discriminate].
  destruct (Str.re_match "title:" l1) as [t|] eqn:M1; [|discriminate].
  destruct (lines_of output !! 2) as [l2|]; [|discriminate].
  destruct (Str.re_match "file:" l2) as [f|] eqn:M2; [|discriminate].
  intros [= <- <-]. exists l0, l1, l2, i, t, f. auto 10.
Qed.

(** [get_or_node_details]'s parser, case by case. *)
Lemma details_parse_match output w l0 l1 t f :
  lines_of output !! 0 = Some l0 -> Str.re_match "title:" l0 = Some t ->
  lines_of output !! 1 = Some l1 -> Str.re_match "file:" l1 = Some f ->
  details_parse rewrite_links output w
  = (Return (Some (<["html" := rewrite_links
                                 (Str.join (Str.chr Str.nl) (drop 2 (lines_of output)))
                                 (Pathlib.parent (Pathlib.of_str f))]>
                     (<["file" := f]> (<["title" := t]> ∅)))), w).
Proof. intros H0 M0 H1 M1. unfold_parse. now rewrite H0, M0, H1, M1. Qed.

Lemma details_parse_no_title output w l0 :
  lines_of output !! 0 = Some l0 -> Str.re_match "title:" l0 = None ->
  details_parse rewrite_links output w
  = (Raise (HTTPException 404 "No node found"),
     add_log ("Unable to parse output from emacsclient: " +:+ output) w).
Proof. intros H0 M0. unfold_parse. now rewrite H0, M0. Qed.

Lemma details_parse_no_file output w l0 t l1 :
  lines_of output !! 0 = Some l0 -> Str.re_match "title:" l0 = Some t ->
  lines_of output !! 1 = Some l1 -> Str.re_match "file:" l1 = None ->
  details_parse rewrite_links output w = (Return None, w).
Proof. intros H0 M0 H1 M1. unfold_parse. now rewrite H0, M0, H1, M1. Qed.

Lemma details_parse_one_line output w l0 t :
  lines_of output !! 0 = Some l0 -> Str.re_match "title:" l0 = Some t ->
  lines_of output !! 1 = None ->
  details_parse rewrite_links output w = (Raise IndexError, w).
Proof. intros H0 M0 H1. unfold_parse. now rewrite H0, M0, H1. Qed.

Lemma details_parse_inv output w d w' :
  details_parse rewrite_links output w = (Return (Some d), w') ->
  w' = w /\
  exists l0 l1 t f,
    lines_of output !! 0 = Some l0 /\ Str.re_match "title:" l0 = Some t /\
    lines_of output !! 1 = Some l1 /\ Str.re_match "file:" l1 = Some f /\
    d = <["html" := rewrite_links
                      (Str.join (Str.chr Str.nl) (drop 2 (lines_of output)))
                      (Pathlib.parent (Pathlib.of_str f))]>
          (<["file" := f]> (<["title" := t]> ∅)).
Proof.
  unfold_parse.
  destruct (lines_of output !! 0) as [l0|]; [|discriminate].
  destruct (Str.re_match "title:" l0) as [t|] eqn:M0; [|discriminate].
  destruct (lines_of output !! 1) as [l1|]; [|discriminate].
  destruct (Str.re_match "file:" l1) as [f|] eqn:M1; [|discriminate].
  intros [= <- <-]. split; [reflexivity|]. exists l0, l1, t, f. auto 10.
Qed.

End ParserFacts.

(** ** Paths *)

Lemma removelast_shorter {A} (x : A) l : removelast (x :: l) <> x :: l.
Proof.
  intros H. apply (f_equal (@length A)) in H.
  revert x H; induction l as [|y l IH]; intros x H; [discriminate|].
  apply (IH y). cbn [removelast length] in *. lia.
Qed.

(** A path is its own parent exactly when it has no component. *)
Lemma parent_fixed p : Pathlib.parent p = p <-> Pathlib.tail p = [].
Proof.
  destruct p as [r l]. unfold Pathlib.parent. cbn [Pathlib.tail Pathlib.root].
  destruct l as [|x l]; split; try reflexivity; try discriminate.
  intros [= H]. exfalso. exact (removelast_shorter _ _ H).
Qed.

(** ** What the specification says of the parsers *)

Section ParserClaims.

Variable subprocess_run : list string -> FS -> outcome CompletedProcess * FS.
Variable decode_utf8 : list byte -> option string.
Variable tmp_name : FS -> string.
Variable rewrite_links : string -> Pathlib.Path -> string.

Local Abbreviation ask := (ask_emacs subprocess_run decode_utf8 tmp_name).
Local Abbreviation select := (select_node subprocess_run decode_utf8 tmp_name).
Local Abbreviation details :=
  (get_or_node_details subprocess_run decode_utf8 tmp_name rewrite_links).
Local Abbreviation lines_of := (Str.split Str.nl).

(** C6. When the bridge returns [output] and the three patterns match lines
    0, 1 and 2, [select_node] returns the dictionary of the three captured
    groups, each of them what follows the prefix on its line; for the output
    with lines [id:abc], [title:My Note], [file:/x/y.org] the fields are
    [abc], [My Note] and [/x/y.org]. *)
Theorem select_node_returns_fields w w' output :
  ask ELISP_SN true w = (Return output, w') ->
  (output = "id:abc
title:My Note
file:/x/y.org" ->
   select w = (Return (<["file" := "/x/y.org"]> (<["title" := "My Note"]>
                         (<["id" := "abc"]> ∅))), w'))
  /\ (forall l0 l1 l2 i t f,
        lines_of output !! 0 = Some l0 -> Str.re_match "id:" l0 = Some i ->
        lines_of output !! 1 = Some l1 -> Str.re_match "title:" l1 = Some t ->
        lines_of output !! 2 = Some l2 -> Str.re_match "file:" l2 = Some f ->
        select w = (Return (<["file" := f]> (<["title" := t]> (<["id" := i]> ∅))), w')
        /\ l0 = "id:" +:+ i /\ l1 = "title:" +:+ t /\ l2 = "file:" +:+ f).
Proof.
  intros Hask. rewrite (select_node_eq _ _ _ _ _ _ Hask). split.
  - intros ->. vm_compute. reflexivity.
  - intros l0 l1 l2 i t f H0 M0 H1 M1 H2 M2. split.
    + eapply select_node_parse_match; eauto.
    + pose proof (StrFacts.split_lookup_clean _ _ _ _ H0) as C0.
      pose proof (StrFacts.split_lookup_clean _ _ _ _ H1) as C1.
      pose proof (StrFacts.split_lookup_clean _ _ _ _ H2) as C2.
      destruct (StrFacts.re_match_line_inv _ _ _ C0 M0) as (-> & _).
      destruct (StrFacts.re_match_line_inv _ _ _ C1 M1) as (-> & _).
      destruct (StrFacts.re_match_line_inv _ _ _ C2 M2) as (-> & _).
      auto.
Qed.

(** C7. When the bridge returns [output] and lines 0 and 1 match [title:]
    and [file:], [get_or_node_details] returns title, file and the rewritten
    HTML, where the HTML given to the rewriter is the lines from index 2 on
    joined by newlines: all of [output] after its first two lines, newlines
    included. For the output with lines [title:T], [file:/a/b.org],
    [<div>line1</div>], [<div>line2</div>] that is title [T], file
    [/a/b.org] and the two [div] lines with the newline between them. *)
Theorem details_html_is_joined_tail or_node_id w w' output l0 l1 t f :
  ask (GND_head +:+ or_node_id +:+ GND_tail) false w = (Return output, w') ->
  lines_of output !! 0 = Some l0 -> Str.re_match "title:" l0 = Some t ->
  lines_of output !! 1 = Some l1 -> Str.re_match "file:" l1 = Some f ->
  details or_node_id w
  = (Return (Some (<["html" := rewrite_links
                                 (Str.join (Str.chr Str.nl) (drop 2 (lines_of output)))
                                 (Pathlib.parent (Pathlib.of_str f))]>
                     (<["file" := f]> (<["title" := t]> ∅)))), w')
  /\ (forall html,
        output = l0 +:+ String Str.nl (l1 +:+ String Str.nl html) ->
        Str.join (Str.chr Str.nl) (drop 2 (lines_of output)) = html)
  /\ (output = "title:T
file:/a/b.org
<div>line1</div>
<div>line2</div>" ->
      t = "T" /\ f = "/a/b.org"
      /\ Str.join (Str.chr Str.nl) (drop 2 (lines_of output)) = "<div>line1</div>
<div>line2</div>").
Proof.
  intros Hask H0 M0 H1 M1. split; [|split].
  - rewrite (details_eq _ _ _ _ _ _ _ _ Hask).
    eapply details_parse_match; eauto.
  - intros html ->.
    pose proof (StrFacts.split_lookup_clean _ _ _ _ H0) as C0.
    pose proof (StrFacts.split_lookup_clean _ _ _ _ H1) as C1.
    rewrite (StrFacts.split_app _ _ _ C0), (StrFacts.split_app _ _ _ C1).
    cbn [drop]. apply StrFacts.join_split.
  - intros ->. vm_compute in H0, H1. injection H0 as <-. injection H1 as <-.
    vm_compute in M0, M1. injection M0 as <-. injection M1 as <-.
    repeat split; vm_compute; reflexivity.
Qed.

(** C8, as amended. Whenever [get_or_node_details] returns a dictionary,
    the bridge returned some [output] whose lines 0 and 1 matched with title
    [t] and file [f], and the [html] field is what [rewrite_links] gives for
    the joined lines from index 2 on and [Path(f).parent]. That directory is
    [Path(f)] itself exactly when [f] has no last component ([/], [//], [.]
    and the like): a path with no component is its own parent, and only
    then is the rewriter given the path of the file. *)
Theorem details_rewrites_in_parent_dir or_node_id w w' d :
  details or_node_id w = (Return (Some d), w') ->
  exists output t f,
    ask (GND_head +:+ or_node_id +:+ GND_tail) false w = (Return output, w')
    /\ d !! "title" = Some t /\ d !! "file" = Some f
    /\ d !! "html"
       = Some (rewrite_links
                 (Str.join (Str.chr Str.nl) (drop 2 (lines_of output)))
                 (Pathlib.parent (Pathlib.of_str f)))
    /\ (Pathlib.parent (Pathlib.of_str f) = Pathlib.of_str f
        <-> Pathlib.tail (Pathlib.of_str f) = []).
Proof.
  unfold get_or_node_details. rewrite format_ELISP_GND. unfold bind at 1.
  destruct (ask _ false w) as [[output|e|] w1] eqn:Hask; try discriminate.
  intros H. apply details_parse_inv in H as (-> & l0 & l1 & t & f & _ & _ & _ & _ & ->).
  exists output, t, f. split; [reflexivity|].
  split; [|split; [|split]].
  - rewrite lookup_insert_ne, lookup_insert_ne by discriminate.
    apply lookup_insert_eq.
  - rewrite lookup_insert_ne by discriminate. apply lookup_insert_eq.
  - apply lookup_insert_eq.
  - apply parent_fixed.
Qed.

(** C9. The snippet [get_or_node_details] gives to the bridge is the
    template with the node id, as it is, where [{node_id}] stands: between
    the two double quotes of the template's string literal. *)
Theorem snippet_holds_id_verbatim or_node_id :
  ELISP_GND = GND_head +:+ "{node_id}" +:+ GND_tail
  /\ (exists a b, GND_head = a +:+ Str.chr Str.dq /\ GND_tail = Str.chr Str.dq +:+ b)
  /\ Fmt.format ELISP_GND {["node_id" := or_node_id]}
     = Return (GND_head +:+ or_node_id +:+ GND_tail)
  /\ (forall w,
        details or_node_id w
        = (do output <- ask (GND_head +:+ or_node_id +:+ GND_tail) false;
           details_parse rewrite_links output) w)
  /\ (forall tmp,
        command (GND_head +:+ or_node_id +:+ GND_tail) false tmp
        = ["emacsclient"; "--eval";
           "(write-region " +:+ (GND_head +:+ or_node_id +:+ GND_tail)
             +:+ " nil " +:+ Str.chr Str.dq +:+ tmp +:+ Str.chr Str.dq +:+ ")"]).
Proof.
  split; [reflexivity|]. split.
  - eexists _, _. split; reflexivity.
  - split; [apply format_ELISP_GND|]. split.
    + intros w. unfold get_or_node_details. now rewrite format_ELISP_GND.
    + intros tmp. reflexivity.
Qed.

(** C10. Group 1 of a match is never empty. So a line that is only its
    prefix sends [select_node] to its 404 (on any of the three lines) and
    [get_or_node_details] to its logged 404 (on the title line); and the
    fields [select_node] returns are never empty. *)
Theorem bare_prefix_is_not_found w w' output :
  (forall prefix line g, Str.re_match prefix line = Some g -> g <> EmptyString)
  /\ (ask ELISP_SN true w = (Return output, w') ->
      (lines_of output !! 0 = Some "id:"
       \/ lines_of output !! 1 = Some "title:"
       \/ lines_of output !! 2 = Some "file:") ->
      select w = (Raise (HTTPException 404 "No node selected"), w'))
  /\ (forall or_node_id,
        ask (GND_head +:+ or_node_id +:+ GND_tail) false w = (Return output, w') ->
        lines_of output !! 0 = Some "title:" ->
        details or_node_id w
        = (Raise (HTTPException 404 "No node found"),
           add_log ("Unable to parse output from emacsclient: " +:+ output) w'))
  /\ (forall d,
        ask ELISP_SN true w = (Return output, w') ->
        select w = (Return d, w') ->
        exists i t f,
          d = <["file" := f]> (<["title" := t]> (<["id" := i]> ∅))
          /\ i <> EmptyString /\ t <> EmptyString /\ f <> EmptyString).
Proof.
  split; [exact StrFacts.re_match_nonempty|]. split; [|split].
  - intros Hask Hbare. rewrite (select_node_eq _ _ _ _ _ _ Hask).
    destruct (StrFacts.lookup_split_0 Str.nl output) as [l0 H0].
    destruct (Str.re_match "id:" l0) as [i|] eqn:M0;
      [|eapply select_node_parse_no_id; eauto].
    destruct Hbare as [B|[B|B]].
    + rewrite B in H0. injection H0 as <-.
      rewrite StrFacts.re_match_bare in M0. discriminate M0.
    + exact (select_node_parse_no_title output w' l0 i _ H0 M0 B
               (StrFacts.re_match_bare _)).
    + destruct (lines_of output !! 1) as [l1|] eqn:H1.
      * destruct (Str.re_match "title:" l1) as [t|] eqn:M1.
        -- exact (select_node_parse_no_file output w' l0 i l1 t _ H0 M0 H1 M1 B
                    (StrFacts.re_match_bare _)).
        -- exact (select_node_parse_no_title output w' l0 i l1 H0 M0 H1 M1).
      * apply lookup_ge_None in H1. apply lookup_lt_Some in B. lia.
  - intros or_node_id Hask B. rewrite (details_eq _ _ _ _ _ _ _ _ Hask).
    exact (details_parse_no_title rewrite_links output w' _ B
             (StrFacts.re_match_bare _)).
  - intros d Hask H. rewrite (select_node_eq _ _ _ _ _ _ Hask) in H.
    apply select_node_parse_inv in H
      as (l0 & l1 & l2 & i & t & f & _ & M0 & _ & M1 & _ & M2 & ->).
    exists i, t, f. split; [reflexivity|].
    repeat split; eapply StrFacts.re_match_nonempty; eauto.
Qed.

(** C1, where the code departs from it. When line 0 matches [title:] and
    line 1 does not match [file:], [get_or_node_details] raises nothing and
    logs nothing: it returns Python's [None]. When line 0 matches and there
    is no line 1, it raises [IndexError]. The output with lines [title:T]
    and [nope] is of the first kind, the output [title:T] of the second. *)
Theorem details_unmatched_file_line or_node_id w w' output l0 t :
  ask (GND_head +:+ or_node_id +:+ GND_tail) false w = (Return output, w') ->
  lines_of output !! 0 = Some l0 -> Str.re_match "title:" l0 = Some t ->
  (forall l1, lines_of output !! 1 = Some l1 -> Str.re_match "file:" l1 = None ->
     details or_node_id w = (Return None, w'))
  /\ (lines_of output !! 1 = None -> details or_node_id w = (Raise IndexError, w'))
  /\ (output = "title:T
nope" -> details or_node_id w = (Return None, w'))
  /\ (output = "title:T" -> details or_node_id w = (Raise IndexError, w')).
Proof.
  intros Hask H0 M0. rewrite (details_eq _ _ _ _ _ _ _ _ Hask).
  split; [|split; [|split]].
  - intros l1 H1 M1. eapply details_parse_no_file; eauto.
  - intros H1. eapply details_parse_one_line; eauto.
  - intros ->. reflexivity.
  - intros ->. reflexivity.
Qed.

(** C2, where the code departs from it. When line 0 matches [id:] and there
    is no line 1, or lines 0 and 1 match and there is no line 2,
    [select_node] raises [IndexError], not its 404; the output [id:abc] is of
    the first kind. An output whose line 0 does not match, such as the one
    with lines [oops], [title:t], [file:f], or the empty output, gets the
    404. *)
Theorem select_node_short_output w w' output l0 i :
  ask ELISP_SN true w = (Return output, w') ->
  lines_of output !! 0 = Some l0 -> Str.re_match "id:" l0 = Some i ->
  (lines_of output !! 1 = None -> select w = (Raise IndexError, w'))
  /\ (forall l1 t, lines_of output !! 1 = Some l1 ->
        Str.re_match "title:" l1 = Some t ->
        lines_of output !! 2 = None -> select w = (Raise IndexError, w'))
  /\ (output = "id:abc" -> select w = (Raise IndexError, w')).
Proof.
  intros Hask H0 M0. rewrite (select_node_eq _ _ _ _ _ _ Hask).
  split; [|split].
  - intros H1. eapply select_node_parse_one_line; eauto.
  - intros l1 t H1 M1 H2. eapply select_node_parse_two_lines; eauto.
  - intros ->. reflexivity.
Qed.

(** The part of C2 the code keeps: a line 0 that does not match gives the
    404, whatever follows. *)
Lemma select_node_unmatched_id w w' output l0 :
  ask ELISP_SN true w = (Return output, w') ->
  lines_of output !! 0 = Some l0 -> Str.re_match "id:" l0 = None ->
  select w = (Raise (HTTPException 404 "No node selected"), w').
Proof.
  intros Hask H0 M0. rewrite (select_node_eq _ _ _ _ _ _ Hask).
  eapply select_node_parse_no_id; eauto.
Qed.

End ParserClaims.

(** ** Threads under the lock *)

Module ThreadFacts.
Import Threads.

Section Pool.

Variable subprocess_run : list string -> FS -> outcome CompletedProcess * FS.
Variable decode_utf8 : list byte -> option string.
Variable tmp_name : FS -> string.

Local Abbreviation step := (thread_step subprocess_run decode_utf8 tmp_name).
Local Abbreviation pstep := (pool_step subprocess_run decode_utf8 tmp_name).
Local Abbreviation reach := (reaches subprocess_run decode_utf8 tmp_name).

(** Replacing one thread changes the count of holders by that thread. *)
Lemma holders_insert pool i p p' :
  pool !! i = Some p ->
  holders (<[i := p']> pool) + Nat.b2n (holds p)
  = holders pool + Nat.b2n (holds p').
Proof.
  unfold holders. revert i; induction pool as [|x pool IH]; intros i H.
  - discriminate.
  - destruct i as [|i]; cbn in H.
    + injection H as ->. simpl.
      destruct (holds p), (holds p'); simpl; lia.
    + specialize (IH i H). simpl.
      destruct (holds x); simpl; lia.
Qed.

Lemma holders_member pool i p :
  pool !! i = Some p -> holds p = true -> 1 <= holders pool.
Proof.
  intros H Hp. pose proof (holders_insert pool i p (Finished Hang) H) as E.
  rewrite Hp in E. cbn in E. lia.
Qed.

Lemma holders_two pool i j p q :
  pool !! i = Some p -> pool !! j = Some q -> i <> j ->
  holds p = true -> holds q = true -> 2 <= holders pool.
Proof.
  intros Hi Hj Hne Hp Hq.
  pose proof (holders_insert pool i p (Finished Hang) Hi) as E.
  rewrite Hp in E. cbn in E.
  assert (<[i := Finished Hang]> pool !! j = Some q) as Hj'
    by now rewrite list_lookup_insert_ne.
  pose proof (holders_member _ _ _ Hj' Hq). lia.
Qed.

Lemma holders_none pool : Forall (fun p => holds p = false) pool -> holders pool = 0.
Proof.
  unfold holders. induction 1 as [|x l Hx _ IH]; [reflexivity|].
  cbn. now rewrite Hx.
Qed.

(** The last step of a thread, spelled out. *)
Lemma step_checking w tmp r :
  exists out w',
    step w (Checking tmp r) = Some (w', Finished out)
    /\ mutex_locked w' = mutex_locked w /\ error_log w' = error_log w
    /\ (files w' = files w \/ files w' = unlink_name (name tmp) (files w)).
Proof.
  cbn [thread_step].
  assert (forall out, exists out' w',
            (let (o, w'') := tmp_exit tmp out w in Some (w'', Finished o))
            = Some (w', Finished out')
            /\ mutex_locked w' = mutex_locked w /\ error_log w' = error_log w
            /\ (files w' = files w \/ files w' = unlink_name (name tmp) (files w))) as H.
  { intros out. unfold tmp_exit. destruct (names (files w) !! name tmp);
      eexists _, _; (split; [reflexivity|]); cbn; auto. }
  destruct r as [cp|e|]; [destruct (stderr cp)|..];
    unfold bind, tmp_read, decode, raise, ret; cbn.
  - destruct (decode_utf8 _); apply H.
  - apply H.
  - apply H.
  - apply H.
Qed.

Lemma step_keeps_inv w pool i p w' p' :
  lock_inv (w, pool) -> pool !! i = Some p -> step w p = Some (w', p') ->
  lock_inv (w', <[i := p']> pool).
Proof.
  unfold lock_inv. cbn [fst snd]. intros I Hi Hs.
  pose proof (holders_insert pool i p p' Hi) as E.
  destruct p as [elisp cf|tmp cmd|tmp cmd|tmp r|tmp r|r].
  - cbn in Hs. injection Hs as <- <-. cbn in *. lia.
  - cbn in Hs. unfold acquire in Hs.
    destruct (mutex_locked w) eqn:Hl; [discriminate|].
    injection Hs as <- <-. cbn in *. lia.
  - cbn in Hs. unfold run in Hs.
    destruct (subprocess_run cmd (files w)) as [[cp|e|] fs];
      try discriminate; injection Hs as <- <-; cbn in *; lia.
  - cbn in Hs. injection Hs as <- <-.
    pose proof (holders_member pool i _ Hi eq_refl).
    destruct (mutex_locked w); cbn in *; lia.
  - destruct (step_checking w tmp r) as (out & w1 & E1 & Hl & _).
    rewrite E1 in Hs. injection Hs as <- <-. rewrite Hl. cbn in *. lia.
  - discriminate.
Qed.

Lemma pool_step_keeps_inv s s' : lock_inv s -> pstep s s' -> lock_inv s'.
Proof. intros I H. destruct H. eapply step_keeps_inv; eauto. Qed.

Lemma reaches_keeps_inv s s' : reach s s' -> lock_inv s -> lock_inv s'.
Proof.
  unfold reaches. induction 1 as [|x y z Hxy _ IH]; [auto|].
  intros I. apply IH. eapply pool_step_keeps_inv; eauto.
Qed.

Lemma initial_inv w pool :
  mutex_locked w = false -> Forall (fun p => called p = true) pool ->
  lock_inv (w, pool).
Proof.
  intros Hl Hc. unfold lock_inv. cbn [fst snd]. rewrite Hl. apply holders_none.
  eapply Forall_impl; [exact Hc|]. intros [] H; cbn in *; congruence.
Qed.

(** Every state a schedule leads to is one the program reaches. *)
Lemma run_schedule_reaches sched s :
  reach s (run_schedule subprocess_run decode_utf8 tmp_name sched s).
Proof.
  unfold reaches. revert s; induction sched as [|i sched IH]; intros [w pool]; cbn.
  - apply rtc_refl.
  - destruct (pool !! i) as [p|] eqn:Hi; [|apply IH].
    destruct (step w p) as [[w' p']|] eqn:Hs; [|apply IH].
    eapply rtc_l; [|apply IH]. econstructor; eauto.
Qed.

Lemma solo_step n w p w' p' :
  step w p = Some (w', p') ->
  solo subprocess_run decode_utf8 tmp_name (S n) w p
  = solo subprocess_run decode_utf8 tmp_name n w' p'.
Proof. intros H. cbn [solo]. now rewrite H. Qed.

Lemma solo_stuck n w p :
  step w p = None -> solo subprocess_run decode_utf8 tmp_name n w p = (w, p).
Proof. intros H. destruct n; cbn [solo]; [reflexivity|now rewrite H]. Qed.

(** A thread that runs alone does what [ask_emacs] does: it ends with the
    same outcome in the same world; and where [ask_emacs] never comes back
    the thread stands still, at the lock when the lock was held, in the
    subprocess, the lock in its hands, otherwise. *)
Lemma solo_is_ask_emacs elisp create_frame w r w' :
  ask_emacs subprocess_run decode_utf8 tmp_name elisp create_frame w = (r, w') ->
  match r with
  | Hang =>
      (mutex_locked w = true
       /\ solo subprocess_run decode_utf8 tmp_name 5 w (Called elisp create_frame)
          = (w', AtLock (fst (tmp_open tmp_name w))
                   (command elisp create_frame (tmp_name (files w)))))
      \/ (mutex_locked w = false /\ mutex_locked w' = true
          /\ exists w1,
               solo subprocess_run decode_utf8 tmp_name 5 w (Called elisp create_frame)
               = (w1, Running (fst (tmp_open tmp_name w))
                        (command elisp create_frame (tmp_name (files w))))
               /\ mutex_locked w1 = true)
  | _ =>
      solo subprocess_run decode_utf8 tmp_name 5 w (Called elisp create_frame)
      = (w', Finished r)
  end.
Proof.
  intros H.
  assert (step w (Called elisp create_frame)
          = Some (snd (tmp_open tmp_name w),
                  AtLock (fst (tmp_open tmp_name w))
                    (command elisp create_frame (tmp_name (files w))))) as E1
    by reflexivity.
  rewrite (solo_step 4 _ _ _ _ E1).
  destruct (mutex_locked w) eqn:Hl.
  - rewrite (ask_emacs_locked _ _ _ _ _ _ Hl) in H. injection H as <- <-.
    left. split; [reflexivity|]. apply solo_stuck.
    cbn [thread_step]. unfold acquire, tmp_open. cbn [snd mutex_locked set_files].
    now rewrite Hl.
  - rewrite (ask_emacs_eq _ _ _ _ _ _ Hl) in H.
    assert (step (snd (tmp_open tmp_name w))
              (AtLock (fst (tmp_open tmp_name w))
                 (command elisp create_frame (tmp_name (files w))))
            = Some (set_mutex true (snd (tmp_open tmp_name w)),
                    Running (fst (tmp_open tmp_name w))
                      (command elisp create_frame (tmp_name (files w))))) as E2.
    { cbn [thread_step]. unfold acquire, tmp_open. cbn [snd mutex_locked set_files].
      now rewrite Hl. }
    rewrite (solo_step 3 _ _ _ _ E2).
    destruct (subprocess_run (command elisp create_frame (tmp_name (files w)))
                (create (tmp_name (files w)) (files w))) as [r0 fs] eqn:Hrun.
    assert (r0 <> Hang ->
            step (set_mutex true (snd (tmp_open tmp_name w)))
              (Running (fst (tmp_open tmp_name w))
                 (command elisp create_frame (tmp_name (files w))))
            = Some (mkWorld fs true (error_log w),
                    Leaving (fst (tmp_open tmp_name w)) r0)) as E3.
    { intros Hr0. cbn [thread_step]. unfold run, tmp_open.
      cbn [snd files set_files set_mutex]. rewrite Hrun.
      destruct r0; [reflexivity|reflexivity|contradiction]. }
    assert (forall out,
              tmp_exit (fst (tmp_open tmp_name w)) out (mkWorld fs false (error_log w))
              = (r, w') ->
              solo subprocess_run decode_utf8 tmp_name 1
                (mkWorld fs false (error_log w))
                (Checking (fst (tmp_open tmp_name w)) r0)
              = (let (o, w2) := tmp_exit (fst (tmp_open tmp_name w)) out
                                  (mkWorld fs false (error_log w)) in
                 (w2, Finished o)) ->
              r <> Hang ->
              solo subprocess_run decode_utf8 tmp_name 2 (mkWorld fs true (error_log w))
                (Leaving (fst (tmp_open tmp_name w)) r0)
              = (w', Finished r)) as Hend.
    { intros out Hx Hs Hr. rewrite Hx in Hs.
      rewrite (solo_step 1 _ _ (mkWorld fs false (error_log w))
                 (Checking (fst (tmp_open tmp_name w)) r0)); [exact Hs|reflexivity]. }
    destruct r0 as [cp|e|].
    + rewrite (solo_step 2 _ _ _ _ (E3 ltac:(discriminate))).
      assert (r <> Hang) as Hr.
      { intros ->. apply (f_equal fst) in H. cbn [fst] in H. revert H.
        apply tmp_exit_not_hang.
        destruct (stderr cp); [destruct (decode_utf8 _)|]; discriminate. }
      specialize (Hend _ H).
      destruct r; [| |contradiction]; apply Hend; try discriminate;
        cbn [solo thread_step]; unfold bind, tmp_read, decode, raise, ret, tmp_open;
        cbn [fst handle files]; destruct (stderr cp); cbn;
        try destruct (decode_utf8 _); cbn;
        destruct (tmp_exit _ _ _); reflexivity.
    + rewrite (solo_step 2 _ _ _ _ (E3 ltac:(discriminate))).
      assert (r <> Hang) as Hr.
      { intros ->. apply (f_equal fst) in H. cbn [fst] in H. revert H.
        apply tmp_exit_not_hang. discriminate. }
      specialize (Hend _ H).
      destruct r; [| |contradiction]; apply Hend; try discriminate;
        cbn [solo thread_step]; unfold raise; destruct (tmp_exit _ _ _); reflexivity.
    + injection H as <- <-. right. split; [reflexivity|]. split; [reflexivity|].
      exists (set_mutex true (snd (tmp_open tmp_name w))).
      split; [|reflexivity]. apply solo_stuck.
      cbn [thread_step]. unfold run, tmp_open. cbn [snd files set_files set_mutex].
      now rewrite Hrun.
Qed.

End Pool.

(** C5. [ask_emacs] takes the lock before it starts the subprocess and
    gives it back when the subprocess is over: a call that finds the lock
    held waits, its subprocess not started; a call whose subprocess never
    ends keeps the lock; a call that returns or raises leaves the lock
    free. A thread steps through [ask_emacs] by these same operations and,
    run alone, does what the function does. So, from a state where the lock
    is free and every thread has just called [ask_emacs], in every state the
    program reaches: at most one thread is inside [with mutex:], hence at
    most one subprocess in flight; a subprocess is in flight only while the
    lock is held, and then no thread waiting at the lock can move; and once
    every thread has left [ask_emacs], by a return or by an exception, the
    lock is free. *)
Theorem one_invocation_in_flight subprocess_run decode_utf8 tmp_name
    w0 pool0 w pool :
  mutex_locked w0 = false ->
  Forall (fun p => called p = true) pool0 ->
  reaches subprocess_run decode_utf8 tmp_name (w0, pool0) (w, pool) ->
  (forall i j p q, pool !! i = Some p -> pool !! j = Some q ->
     holds p = true -> holds q = true -> i = j)
  /\ (forall i p, pool !! i = Some p -> in_flight p = true ->
        mutex_locked w = true
        /\ forall tmp cmd,
             thread_step subprocess_run decode_utf8 tmp_name w (AtLock tmp cmd) = None)
  /\ (Forall (fun p => finished p = true) pool -> mutex_locked w = false)
  /\ (forall elisp create_frame w1 r w2,
        ask_emacs subprocess_run decode_utf8 tmp_name elisp create_frame w1 = (r, w2) ->
        r <> Hang -> mutex_locked w2 = false)
  /\ (forall elisp create_frame w1,
        mutex_locked w1 = true ->
        ask_emacs subprocess_run decode_utf8 tmp_name elisp create_frame w1
        = (Hang, set_files (create (tmp_name (files w1)) (files w1)) w1))
  /\ (forall elisp create_frame w1,
        mutex_locked w1 = false ->
        fst (subprocess_run (command elisp create_frame (tmp_name (files w1)))
                            (create (tmp_name (files w1)) (files w1))) = Hang ->
        fst (ask_emacs subprocess_run decode_utf8 tmp_name elisp create_frame w1) = Hang
        /\ mutex_locked
             (snd (ask_emacs subprocess_run decode_utf8 tmp_name elisp create_frame w1))
           = true)
  /\ (forall elisp create_frame w1 r w2,
        ask_emacs subprocess_run decode_utf8 tmp_name elisp create_frame w1 = (r, w2) ->
        match r with
        | Hang =>
            (mutex_locked w1 = true
             /\ solo subprocess_run decode_utf8 tmp_name 5 w1 (Called elisp create_frame)
                = (w2, AtLock (fst (tmp_open tmp_name w1))
                         (command elisp create_frame (tmp_name (files w1)))))
            \/ (mutex_locked w1 = false /\ mutex_locked w2 = true
                /\ exists w3,
                     solo subprocess_run decode_utf8 tmp_name 5 w1
                       (Called elisp create_frame)
                     = (w3, Running (fst (tmp_open tmp_name w1))
                              (command elisp create_frame (tmp_name (files w1))))
                     /\ mutex_locked w3 = true)
        | _ =>
            solo subprocess_run decode_utf8 tmp_name 5 w1 (Called elisp create_frame)
            = (w2, Finished r)
        end).
Proof.
  intros Hl Hc Hreach.
  pose proof (reaches_keeps_inv _ _ _ _ _ Hreach (initial_inv _ _ Hl Hc)) as I.
  unfold lock_inv in I. cbn [fst snd] in I.
  split; [|split; [|split; [|split; [|split; [|split]]]]].
  - intros i j p q Hi Hj Hp Hq. destruct (decide (i = j)) as [|Hne]; [assumption|].
    pose proof (holders_two _ _ _ _ _ Hi Hj Hne Hp Hq).
    destruct (mutex_locked w); cbn in I; lia.
  - intros i p Hi Hp.
    assert (holds p = true) as Hh by (destruct p; cbn in *; congruence).
    pose proof (holders_member _ _ _ Hi Hh).
    destruct (mutex_locked w) eqn:E; cbn in I; [|lia].
    split; [reflexivity|]. intros tmp cmd. cbn. unfold acquire. now rewrite E.
  - intros Hf. rewrite holders_none in I.
    + destruct (mutex_locked w); [discriminate|reflexivity].
    + eapply Forall_impl; [exact Hf|]. intros [] H; cbn in *; congruence.
  - intros elisp create_frame w1 r w2 H Hr. eapply ask_emacs_releases; eauto.
  - intros elisp create_frame w1 H. now apply ask_emacs_locked.
  - intros elisp create_frame w1 H1 H2. now apply ask_emacs_hangs_holding.
  - intros elisp create_frame w1 r w2 H. now apply solo_is_ask_emacs.
Qed.

End ThreadFacts.

(** * Concrete runs *)

Lemma ask_emacs_returns_file_content_witness :
  mutex_locked Demo.world = false
  /\ ask_emacs (Demo.editor "3" "") Demo.decode_ascii Demo.tmp_name
               "(+ 1 2)" false Demo.world
     = (Return "3", Demo.left "3").
Proof.
  split; [reflexivity|].
  refine (proj1 (proj2 (ask_emacs_returns_file_content
                          (Demo.editor "3" "") Demo.decode_ascii Demo.tmp_name
                          "(+ 1 2)" false Demo.world))
            (Demo.completed "") _ "3" eq_refl eq_refl eq_refl _ _).
  - vm_compute. eauto.
  - vm_compute. reflexivity.
Defined.

(** A client that puts a new file in the place of the temporary one is not
    read: the handle is on the file [ask_emacs] made, which is still
    empty. *)
Example ask_emacs_replaced_file :
  fst (ask_emacs (Demo.replacer "3" "") Demo.decode_ascii Demo.tmp_name
         "(+ 1 2)" false Demo.world)
  = Return "".
Proof. vm_compute. reflexivity. Qed.

(** A client that removes the temporary file and writes to stderr: leaving
    the [with] block raises [FileNotFoundError], and the [HTTPException]
    with the stderr text is lost. *)
Lemma ask_emacs_removed_file_counterexample :
  fst (Demo.remover "boom" (command "(+ 1 2)" false "/tmp/tmp")
         (create "/tmp/tmp" (files Demo.world)))
  = Return (Demo.completed "boom")
  /\ stderr (Demo.completed "boom") = "boom"
  /\ ask_emacs (Demo.remover "boom") Demo.decode_ascii Demo.tmp_name
               "(+ 1 2)" false Demo.world
     = (Raise (FileNotFoundError "/tmp/tmp"),
        {| files := {| names := ∅; data := {[0 := []]} |};
           mutex_locked := false; error_log := [] |})
  /\ ~ (exists code detail,
          fst (ask_emacs (Demo.remover "boom") Demo.decode_ascii Demo.tmp_name
                 "(+ 1 2)" false Demo.world)
          = Raise (HTTPException code detail)).
Proof.
  split; [reflexivity|]. split; [reflexivity|]. split; [vm_compute; reflexivity|].
  intros (code & detail & H). vm_compute in H. discriminate.
Qed.

Lemma ask_emacs_fails_iff_stderr_witness :
  mutex_locked Demo.world = false
  /\ ask_emacs (Demo.editor "" "*ERROR*: Quit") Demo.decode_ascii Demo.tmp_name
               ELISP_SN true Demo.world
     = (Raise (HTTPException 404 "*ERROR*: Quit"), Demo.left "").
Proof.
  split; [reflexivity|].
  refine (proj2 (proj1 (ask_emacs_fails_iff_stderr
                          (Demo.editor "" "*ERROR*: Quit") Demo.decode_ascii
                          Demo.tmp_name ELISP_SN true Demo.world
                          (Demo.completed "*ERROR*: Quit") _
                          eq_refl eq_refl) _) _).
  - vm_compute. eauto.
  - discriminate.
Defined.

Lemma one_invocation_in_flight_witness :
  mutex_locked Demo.world = false
  /\ Threads.run_schedule (Demo.editor "3" "") Demo.decode_ascii Demo.tmp_name
       [0; 0; 1; 1; 1] (Demo.world, [Threads.Called "(a)" false; Threads.Called "(b)" true])
     = ({| files := {| names := <["/tmp/tmp0" := 1]> {["/tmp/tmp" := 0]};
                       data := <[1 := []]> {[0 := []]} |};
           mutex_locked := true; error_log := [] |},
        [Threads.Running (mkTmp "/tmp/tmp" 0) (command "(a)" false "/tmp/tmp");
         Threads.AtLock (mkTmp "/tmp/tmp0" 1) (command "(b)" true "/tmp/tmp0")])
  /\ forall i j p q,
       [Threads.Running (mkTmp "/tmp/tmp" 0) (command "(a)" false "/tmp/tmp");
        Threads.AtLock (mkTmp "/tmp/tmp0" 1) (command "(b)" true "/tmp/tmp0")] !! i = Some p ->
       [Threads.Running (mkTmp "/tmp/tmp" 0) (command "(a)" false "/tmp/tmp");
        Threads.AtLock (mkTmp "/tmp/tmp0" 1) (command "(b)" true "/tmp/tmp0")] !! j = Some q ->
       Threads.holds p = true -> Threads.holds q = true -> i = j.
Proof.
  split; [reflexivity|]. split; [vm_compute; reflexivity|].
  refine (proj1 (ThreadFacts.one_invocation_in_flight
                   (Demo.editor "3" "") Demo.decode_ascii Demo.tmp_name
                   Demo.world [Threads.Called "(a)" false; Threads.Called "(b)" true]
                   _ _ eq_refl _ _)).
  - repeat constructor.
  - exact (ThreadFacts.run_schedule_reaches
             (Demo.editor "3" "") Demo.decode_ascii Demo.tmp_name
             [0; 0; 1; 1; 1]
             (Demo.world, [Threads.Called "(a)" false; Threads.Called "(b)" true])).
Defined.

Lemma select_node_returns_fields_witness :
  ask_emacs (Demo.editor "id:abc
title:My Note
file:/x/y.org" "") Demo.decode_ascii Demo.tmp_name ELISP_SN true Demo.world
  = (Return "id:abc
title:My Note
file:/x/y.org", Demo.left "id:abc
title:My Note
file:/x/y.org")
  /\ select_node (Demo.editor "id:abc
title:My Note
file:/x/y.org" "") Demo.decode_ascii Demo.tmp_name Demo.world
     = (Return (<["file" := "/x/y.org"]> (<["title" := "My Note"]>
                  (<["id" := "abc"]> ∅))), Demo.left "id:abc
title:My Note
file:/x/y.org").
Proof.
  assert (ask_emacs (Demo.editor "id:abc
title:My Note
file:/x/y.org" "") Demo.decode_ascii Demo.tmp_name ELISP_SN true Demo.world
  = (Return "id:abc
title:My Note
file:/x/y.org", Demo.left "id:abc
title:My Note
file:/x/y.org")) as H by (vm_compute; reflexivity).
  split; [exact H|].
  exact (proj1 (select_node_returns_fields _ _ _ _ _ _ H) eq_refl).
Defined.

Lemma details_html_is_joined_tail_witness :
  get_or_node_details (Demo.editor "title:T
file:/a/b.org
<div>line1</div>
<div>line2</div>" "") Demo.decode_ascii Demo.tmp_name Demo.rewrite_links
    "6f1a2c" Demo.world
  = (Return (Some (<["html" := "<base href=/a><div>line1</div>
<div>line2</div>"]> (<["file" := "/a/b.org"]> (<["title" := "T"]> ∅)))),
     Demo.left "title:T
file:/a/b.org
<div>line1</div>
<div>line2</div>").
Proof.
  refine (proj1 (details_html_is_joined_tail
                   (Demo.editor "title:T
file:/a/b.org
<div>line1</div>
<div>line2</div>" "") Demo.decode_ascii Demo.tmp_name Demo.rewrite_links
                   "6f1a2c" Demo.world _ "title:T
file:/a/b.org
<div>line1</div>
<div>line2</div>" "title:T" "file:/a/b.org"
                   "T" "/a/b.org" _ eq_refl eq_refl eq_refl eq_refl)).
  vm_compute. reflexivity.
Defined.

Lemma details_rewrites_in_parent_dir_witness :
  exists output t f,
    ask_emacs (Demo.editor "title:T
file:/a/b.org
<p>x</p>" "") Demo.decode_ascii Demo.tmp_name
      (GND_head +:+ "6f1a2c" +:+ GND_tail) false Demo.world
    = (Return output, Demo.left "title:T
file:/a/b.org
<p>x</p>")
    /\ (<["html" := "<base href=/a><p>x</p>"]>
          (<["file" := "/a/b.org"]> (<["title" := "T"]> ∅)) : gmap string string)
         !! "title" = Some t
    /\ (<["html" := "<base href=/a><p>x</p>"]>
          (<["file" := "/a/b.org"]> (<["title" := "T"]> ∅)) : gmap string string)
         !! "file" = Some f
    /\ (<["html" := "<base href=/a><p>x</p>"]>
          (<["file" := "/a/b.org"]> (<["title" := "T"]> ∅)) : gmap string string)
         !! "html"
       = Some (Demo.rewrite_links
                 (Str.join (Str.chr Str.nl) (drop 2 (Str.split Str.nl output)))
                 (Pathlib.parent (Pathlib.of_str f)))
    /\ (Pathlib.parent (Pathlib.of_str f) = Pathlib.of_str f
        <-> Pathlib.tail (Pathlib.of_str f) = []).
Proof.
  refine (details_rewrites_in_parent_dir
            (Demo.editor "title:T
file:/a/b.org
<p>x</p>" "") Demo.decode_ascii Demo.tmp_name Demo.rewrite_links
            "6f1a2c" Demo.world _ _ _).
  vm_compute. reflexivity.
Defined.

(** For the file line [file:/] the call succeeds and the directory handed
    to [rewrite_links] is the path of the file itself. *)
Lemma details_root_path_counterexample :
  get_or_node_details (Demo.editor "title:T
file:/
<p>x</p>" "") Demo.decode_ascii Demo.tmp_name Demo.rewrite_links "6f1a2c" Demo.world
  = (Return (Some (<["html" := Demo.rewrite_links "<p>x</p>" (Pathlib.of_str "/")]>
                     (<["file" := "/"]> (<["title" := "T"]> ∅)))),
     Demo.left "title:T
file:/
<p>x</p>")
  /\ Pathlib.parent (Pathlib.of_str "/") = Pathlib.of_str "/".
Proof. split; vm_compute; reflexivity. Qed.

Lemma bare_prefix_is_not_found_witness :
  select_node (Demo.editor "id:abc
title:
file:/x/y.org" "") Demo.decode_ascii Demo.tmp_name Demo.world
  = (Raise (HTTPException 404 "No node selected"), Demo.left "id:abc
title:
file:/x/y.org").
Proof.
  refine (proj1 (proj2 (bare_prefix_is_not_found
                          (Demo.editor "id:abc
title:
file:/x/y.org" "") Demo.decode_ascii Demo.tmp_name Demo.rewrite_links
                          Demo.world _ "id:abc
title:
file:/x/y.org")) _ (or_intror (or_introl eq_refl))).
  vm_compute. reflexivity.
Defined.

Lemma details_unmatched_file_line_witness :
  get_or_node_details (Demo.editor "title:T
nope" "") Demo.decode_ascii Demo.tmp_name Demo.rewrite_links "6f1a2c" Demo.world
  = (Return None, Demo.left "title:T
nope").
Proof.
  refine (proj1 (proj2 (proj2 (details_unmatched_file_line
                   (Demo.editor "title:T
nope" "") Demo.decode_ascii Demo.tmp_name Demo.rewrite_links
                   "6f1a2c" Demo.world _ "title:T
nope" "title:T" "T"
                   _ eq_refl eq_refl))) eq_refl).
  vm_compute. reflexivity.
Defined.

Lemma select_node_short_output_witness :
  select_node (Demo.editor "id:abc" "") Demo.decode_ascii Demo.tmp_name Demo.world
  = (Raise IndexError, Demo.left "id:abc").
Proof.
  refine (proj2 (proj2 (select_node_short_output
                   (Demo.editor "id:abc" "") Demo.decode_ascii Demo.tmp_name
                   Demo.world _ "id:abc" "id:abc" "abc"
                   _ eq_refl eq_refl)) eq_refl).
  vm_compute. reflexivity.
Defined.

(** Other outputs of the editor. *)
Example select_node_oops :
  select_node (Demo.editor "oops
title:t
file:f" "") Demo.decode_ascii Demo.tmp_name Demo.world
  = (Raise (HTTPException 404 "No node selected"), Demo.left "oops
title:t
file:f").
Proof. vm_compute. reflexivity. Qed.

Example select_node_cancelled :
  select_node (Demo.editor "" "") Demo.decode_ascii Demo.tmp_name Demo.world
  = (Raise (HTTPException 404 "No node selected"), Demo.left "").
Proof. vm_compute. reflexivity. Qed.

Example details_one_line :
  get_or_node_details (Demo.editor "title:T" "") Demo.decode_ascii Demo.tmp_name
    Demo.rewrite_links "6f1a2c" Demo.world
  = (Raise IndexError, Demo.left "title:T").
Proof. vm_compute. reflexivity. Qed.

Example details_malformed :
  fst (get_or_node_details (Demo.editor "nil" "") Demo.decode_ascii Demo.tmp_name
         Demo.rewrite_links "6f1a2c" Demo.world)
  = Raise (HTTPException 404 "No node found")
  /\ error_log (snd (get_or_node_details (Demo.editor "nil" "") Demo.decode_ascii
                       Demo.tmp_name Demo.rewrite_links "6f1a2c" Demo.world))
     = ["Unable to parse output from emacsclient: nil"].
Proof. split; vm_compute; reflexivity. Qed.

(** [Path(f).parent] on a few paths. *)
Example parent_of_file :
  Pathlib.to_str (Pathlib.parent (Pathlib.of_str "/home/u/org/note.org")) = "/home/u/org".
Proof. reflexivity. Qed.

Example parent_of_bare_name :
  Pathlib.to_str (Pathlib.parent (Pathlib.of_str "note.org")) = ".".
Proof. reflexivity. Qed.

Example parent_of_root :
  Pathlib.parent (Pathlib.of_str "/") = Pathlib.of_str "/".
Proof. reflexivity. Qed.

(** A node id with a double quote in it reaches the snippet as it is. *)
Example format_keeps_quote :
  Fmt.format ELISP_GND {["node_id" := "a" +:+ Str.chr Str.dq +:+ ") (kill-emacs) (concat " +:+ Str.chr Str.dq]}
  = Return (GND_head +:+ "a" +:+ Str.chr Str.dq +:+ ") (kill-emacs) (concat "
              +:+ Str.chr Str.dq +:+ GND_tail).
Proof. vm_compute. reflexivity. Qed.

(** Both threads run to their end, one after the other: the lock is free
    again and both calls have returned. *)
Example two_calls_in_turn :
  snd (Threads.run_schedule (Demo.editor "3" "") Demo.decode_ascii Demo.tmp_name
         [0; 1; 0; 1; 0; 0; 0; 0; 1; 1; 1; 1]
         (Demo.world, [Threads.Called "(a)" false; Threads.Called "(b)" true]))
  = [Threads.Finished (Return "3"); Threads.Finished (Return "3")]
  /\ mutex_locked
       (fst (Threads.run_schedule (Demo.editor "3" "") Demo.decode_ascii Demo.tmp_name
               [0; 1; 0; 1; 0; 0; 0; 0; 1; 1; 1; 1]
               (Demo.world, [Threads.Called "(a)" false; Threads.Called "(b)" true])))
     = false.
Proof. split; vm_compute; reflexivity. Qed.

(** * Further properties of the bridge *)

Section BridgeMore.

Variable subprocess_run : list string -> FS -> outcome CompletedProcess * FS.
Variable decode_utf8 : list byte -> option string.
Variable tmp_name : FS -> string.
Variable rewrite_links : string -> Pathlib.Path -> string.

Local Abbreviation ask := (ask_emacs subprocess_run decode_utf8 tmp_name).
Local Abbreviation select := (select_node subprocess_run decode_utf8 tmp_name).
Local Abbreviation details :=
  (get_or_node_details subprocess_run decode_utf8 tmp_name rewrite_links).
Local Abbreviation lines_of := (Str.split Str.nl).

(** [ask_emacs] writes nothing to the log, however it ends. *)
Lemma ask_emacs_log elisp create_frame w :
  error_log (snd (ask elisp create_frame w)) = error_log w.
Proof.
  destruct (mutex_locked w) eqn:Hl.
  - now rewrite (ask_emacs_locked _ _ _ _ _ _ Hl).
  - rewrite (ask_emacs_eq _ _ _ _ _ _ Hl).
    destruct (subprocess_run _ _) as [[cp|e|] fs]; [| |reflexivity].
    + match goal with
      | |- error_log (snd (tmp_exit ?t ?r ?w0)) = _ =>
          now destruct (tmp_exit_lock t r w0) as [_ ->]
      end.
    + match goal with
      | |- error_log (snd (tmp_exit ?t ?r ?w0)) = _ =>
          now destruct (tmp_exit_lock t r w0) as [_ ->]
      end.
Qed.

(** X1. A call that finds the lock free, a temporary name no file has and a
    subprocess that touches no file but the temporary one leaves the file
    system as it found it, whether it returns or raises: the same names, and
    under each name the same bytes. *)
Theorem ask_emacs_leaves_files elisp create_frame w r fs :
  mutex_locked w = false ->
  names (files w) !! tmp_name (files w) = None ->
  subprocess_run (command elisp create_frame (tmp_name (files w)))
                 (create (tmp_name (files w)) (files w)) = (r, fs) ->
  r <> Hang ->
  (forall name, name <> tmp_name (files w) ->
     names fs !! name = names (files w) !! name
     /\ read_name fs name = read_name (files w) name) ->
  names (files (snd (ask elisp create_frame w))) = names (files w)
  /\ forall name,
       read_name (files (snd (ask elisp create_frame w))) name
       = read_name (files w) name.
Proof.
  intros Hfree Hfresh Hrun Hr Hframe.
  assert (forall (out : outcome string),
            names (files (snd (tmp_exit (mkTmp (tmp_name (files w)) (new_ino (files w)))
                                 out (mkWorld fs false (error_log w)))))
            = names (files w)
            /\ forall name,
                 read_name (files (snd (tmp_exit
                                          (mkTmp (tmp_name (files w)) (new_ino (files w)))
                                          out (mkWorld fs false (error_log w))))) name
                 = read_name (files w) name) as E.
  { intros out. unfold tmp_exit. cbn [files name].
    destruct (names fs !! tmp_name (files w)) eqn:Hn;
      cbn [snd files set_files unlink_name names].
    - split.
      + apply map_eq. intros name. cbn [unlink_name names].
        destruct (decide (name = tmp_name (files w))) as [->|Hne].
        * now rewrite lookup_delete_eq, Hfresh.
        * rewrite lookup_delete_ne by congruence. now apply Hframe.
      + intros name. unfold read_name. cbn [unlink_name names].
        destruct (decide (name = tmp_name (files w))) as [->|Hne].
        * now rewrite lookup_delete_eq, Hfresh.
        * rewrite lookup_delete_ne by congruence.
          destruct (Hframe name Hne) as [_ Hread]. exact Hread.
    - split.
      + apply map_eq. intros name.
        destruct (decide (name = tmp_name (files w))) as [->|Hne].
        * now rewrite Hn, Hfresh.
        * now apply Hframe.
      + intros name. destruct (decide (name = tmp_name (files w))) as [->|Hne].
        * unfold read_name. now rewrite Hn, Hfresh.
        * now apply Hframe. }
  rewrite (ask_emacs_eq _ _ _ _ _ _ Hfree), Hrun.
  destruct r as [cp|e|]; [apply E|apply E|contradiction].
Qed.

(** X2. A subprocess that never ends leaves the lock held: the call never
    comes back, and neither does any later call of [ask_emacs],
    [select_node] or [get_or_node_details]. *)
Theorem hung_editor_blocks_later_calls elisp create_frame w :
  mutex_locked w = false ->
  fst (subprocess_run (command elisp create_frame (tmp_name (files w)))
                      (create (tmp_name (files w)) (files w))) = Hang ->
  fst (ask elisp create_frame w) = Hang
  /\ mutex_locked (snd (ask elisp create_frame w)) = true
  /\ (forall elisp' create_frame',
        fst (ask elisp' create_frame' (snd (ask elisp create_frame w))) = Hang)
  /\ fst (select (snd (ask elisp create_frame w))) = Hang
  /\ (forall or_node_id,
        fst (details or_node_id (snd (ask elisp create_frame w))) = Hang).
Proof.
  intros Hfree Hrun.
  destruct (ask_emacs_hangs_holding subprocess_run decode_utf8 tmp_name
              elisp create_frame w Hfree Hrun) as [H1 H2].
  split; [exact H1|]. split; [exact H2|].
  assert (forall elisp' create_frame',
            fst (ask elisp' create_frame' (snd (ask elisp create_frame w))) = Hang) as H
    by (intros; now rewrite (ask_emacs_locked _ _ _ _ _ _ H2)).
  split; [exact H|]. split.
  - unfold select_node, bind. specialize (H ELISP_SN true).
    destruct (ask ELISP_SN true _) as [[?|?|] ?]; cbn in H; try discriminate.
    reflexivity.
  - intros or_node_id. unfold get_or_node_details. rewrite format_ELISP_GND.
    unfold bind. specialize (H (GND_head +:+ or_node_id +:+ GND_tail) false).
    destruct (ask _ false _) as [[?|?|] ?]; cbn in H; try discriminate.
    reflexivity.
Qed.

(** X3. When the editor writes to stderr and leaves the name of the
    temporary file in place, both callers raise the bridge's error with the
    stderr text, whatever the temporary file holds: no parse is tried,
    nothing is logged, and the file and the lock are cleaned up. *)
Theorem editor_error_reaches_callers w cp fs or_node_id :
  mutex_locked w = false ->
  stderr cp <> EmptyString ->
  is_Some (names fs !! tmp_name (files w)) ->
  (subprocess_run (command ELISP_SN true (tmp_name (files w)))
                  (create (tmp_name (files w)) (files w)) = (Return cp, fs) ->
   select w = (Raise (HTTPException 404 (stderr cp)),
               mkWorld (unlink_name (tmp_name (files w)) fs) false (error_log w)))
  /\ (subprocess_run
        (command (GND_head +:+ or_node_id +:+ GND_tail) false (tmp_name (files w)))
        (create (tmp_name (files w)) (files w)) = (Return cp, fs) ->
      details or_node_id w
      = (Raise (HTTPException 404 (stderr cp)),
         mkWorld (unlink_name (tmp_name (files w)) fs) false (error_log w))).
Proof.
  intros Hfree Herr Hname. split; intros Hrun.
  - unfold select_node, bind.
    destruct (ask_emacs_stderr subprocess_run decode_utf8 tmp_name _ _ w cp fs
                Hfree Hrun Hname) as [_ H].
    now rewrite (H Herr).
  - unfold get_or_node_details. rewrite format_ELISP_GND. unfold bind.
    destruct (ask_emacs_stderr subprocess_run decode_utf8 tmp_name _ _ w cp fs
                Hfree Hrun Hname) as [_ H].
    now rewrite (H Herr).
Qed.

(** X4. [select_node] never writes to the log. [get_or_node_details] writes
    at most one entry, and only together with its 404: the entry is the
    fixed message followed by the whole output of the bridge. *)
Theorem callers_log_at_most_once w or_node_id :
  error_log (snd (select w)) = error_log w
  /\ (error_log (snd (details or_node_id w)) = error_log w
      \/ exists output,
           fst (details or_node_id w) = Raise (HTTPException 404 "No node found")
           /\ fst (ask (GND_head +:+ or_node_id +:+ GND_tail) false w) = Return output
           /\ error_log (snd (details or_node_id w))
              = error_log w ++ ["Unable to parse output from emacsclient: " +:+ output]).
Proof.
  split.
  - unfold select_node, bind.
    pose proof (ask_emacs_log ELISP_SN true w) as L.
    destruct (ask ELISP_SN true w) as [[output|e|] w1]; cbn [snd] in *; try exact L.
    pose proof (select_node_parse_world output w1) as P.
    destruct (select_node_parse output w1) as [r w2]. cbn in *. congruence.
  - unfold get_or_node_details. rewrite format_ELISP_GND. unfold bind.
    pose proof (ask_emacs_log (GND_head +:+ or_node_id +:+ GND_tail) false w) as L.
    destruct (ask _ false w) as [[output|e|] w1]; cbn [snd fst] in *; auto.
    destruct (StrFacts.lookup_split_0 Str.nl output) as [l0 H0].
    destruct (Str.re_match "title:" l0) as [t|] eqn:M0.
    + left. unfold_parse. rewrite H0, M0.
      destruct (lines_of output !! 1) as [l1|]; [|exact L].
      destruct (Str.re_match "file:" l1); exact L.
    + right. exists output.
      rewrite (details_parse_no_title rewrite_links output w1 l0 H0 M0).
      cbn. rewrite L. auto.
Qed.

End BridgeMore.


(** * Further properties of the parsers *)

Module StrMore.
Import Str StrFacts.

(** Splitting at a separator splits both sides of it. *)
Lemma split_sep sep a b :
  split sep (a +:+ String sep b) = split sep a ++ split sep b.
Proof.
  induction a as [|c a IH]; simpl.
  - now rewrite Ascii.eqb_refl.
  - destruct (Ascii.eqb c sep); [now rewrite IH|].
    rewrite IH. destruct (split_head sep a) as (l & ls & ->). reflexivity.
Qed.

Lemma split_clean sep a : contains sep a = false -> split sep a = [a].
Proof.
  induction a as [|c a IH]; simpl; [reflexivity|].
  intros H. apply orb_false_iff in H as [Hc Ha]. now rewrite Hc, (IH Ha).
Qed.

Lemma join_tail sep x l :
  join sep (x :: l) = x \/ exists rest, join sep (x :: l) = x +:+ sep +:+ rest.
Proof. destruct l; [left; reflexivity|right; eexists; reflexivity]. Qed.

Lemma root_of_other a s : a <> "/"%char -> Pathlib.root_of (String a s) = "".
Proof.
  intros H. destruct a as [[] [] [] [] [] [] [] []]; try reflexivity; congruence.
Qed.

Lemma root_of_one b s :
  b <> "/"%char -> Pathlib.root_of (String "/" (String b s)) = "/".
Proof.
  intros H. destruct b as [[] [] [] [] [] [] [] []]; try reflexivity; congruence.
Qed.

Lemma root_of_two c s :
  c <> "/"%char -> Pathlib.root_of (String "/" (String "/" (String c s))) = "//".
Proof.
  intros H. destruct c as [[] [] [] [] [] [] [] []]; try reflexivity; congruence.
Qed.

Lemma append_cons c a b : String c a +:+ b = String c (a +:+ b).
Proof. reflexivity. Qed.

(** The root is read off the start of the string: a last component does
    not change it. *)
Lemma root_of_file dir name :
  contains "/" name = false ->
  Pathlib.root_of (dir +:+ String "/" name) = Pathlib.root_of (dir +:+ "/").
Proof.
  intros Hn.
  assert (Pathlib.root_of (String "/" name) = "/"
          /\ Pathlib.root_of (String "/" (String "/" name)) = "//") as [H1 H2].
  { destruct name as [|c name]; [split; reflexivity|].
    cbn in Hn. apply orb_false_iff in Hn as [Hc _].
    assert (c <> "/"%char) by (intros ->; discriminate Hc).
    split; [now apply root_of_one|now apply root_of_two]. }
  destruct dir as [|a dir]; [exact H1|]. rewrite !append_cons.
  destruct (Ascii.eqb_spec a "/") as [->|Ha].
  2:{ now rewrite !root_of_other. }
  destruct dir as [|b dir]; [exact H2|]. rewrite !append_cons.
  destruct (Ascii.eqb_spec b "/") as [->|Hb].
  2:{ now rewrite !root_of_one. }
  destruct dir as [|c dir]; [reflexivity|]. rewrite !append_cons.
  destruct (Ascii.eqb_spec c "/") as [->|Hc]; [reflexivity|].
  now rewrite !root_of_two.
Qed.

(** The parent of [dir/name] is [dir/]. *)
Lemma parent_of_dir_name dir name :
  contains "/" name = false -> Pathlib.keep name = true ->
  Pathlib.parent (Pathlib.of_str (dir +:+ String "/" name))
  = Pathlib.of_str (dir +:+ "/").
Proof.
  intros Hn Hk. unfold Pathlib.parent, Pathlib.of_str.
  cbn [Pathlib.tail Pathlib.root].
  rewrite (root_of_file _ _ Hn), !split_sep, (split_clean _ _ Hn).
  rewrite !List.filter_app. cbn [List.filter split]. rewrite Hk.
  cbn [Pathlib.keep String.eqb negb andb]. rewrite app_nil_r.
  destruct (List.filter Pathlib.keep (split "/" dir) ++ [name]) eqn:E.
  - destruct (List.filter Pathlib.keep (split "/" dir)); discriminate.
  - rewrite <- E, removelast_last. reflexivity.
Qed.

End StrMore.

Section ParserMore.

Variable subprocess_run : list string -> FS -> outcome CompletedProcess * FS.
Variable decode_utf8 : list byte -> option string.
Variable tmp_name : FS -> string.
Variable rewrite_links : string -> Pathlib.Path -> string.

Local Abbreviation ask := (ask_emacs subprocess_run decode_utf8 tmp_name).
Local Abbreviation select := (select_node subprocess_run decode_utf8 tmp_name).
Local Abbreviation details :=
  (get_or_node_details subprocess_run decode_utf8 tmp_name rewrite_links).
Local Abbreviation lines_of := (Str.split Str.nl).

(** A result of [select_node] comes from an output of the bridge. *)
Lemma select_node_inv w d w' :
  select w = (Return d, w') ->
  exists output, ask ELISP_SN true w = (Return output, w')
                 /\ select_node_parse output w' = (Return d, w').
Proof.
  unfold select_node, bind.
  destruct (ask ELISP_SN true w) as [[output|e|] w1]; try discriminate.
  intros H. pose proof (select_node_parse_world output w1) as P.
  rewrite H in P. cbn in P. subst w1. eauto.
Qed.

Lemma details_inv or_node_id w d w' :
  details or_node_id w = (Return (Some d), w') ->
  exists output,
    ask (GND_head +:+ or_node_id +:+ GND_tail) false w = (Return output, w')
    /\ details_parse rewrite_links output w' = (Return (Some d), w').
Proof.
  unfold get_or_node_details. rewrite format_ELISP_GND. unfold bind.
  destruct (ask _ false w) as [[output|e|] w1]; try discriminate.
  intros H. destruct (details_parse_inv _ _ _ _ _ H) as [-> _]. eauto.
Qed.

(** X6. On an output of three lines or more [select_node] never raises
    [IndexError]: it returns the three groups when lines 0, 1 and 2 match,
    and raises its 404 when one of them does not. On a shorter output it
    returns nothing. *)
Theorem select_node_three_lines w w' output :
  ask ELISP_SN true w = (Return output, w') ->
  (3 <= length (lines_of output) ->
   exists l0 l1 l2,
     lines_of output !! 0 = Some l0 /\ lines_of output !! 1 = Some l1 /\
     lines_of output !! 2 = Some l2 /\
     match Str.re_match "id:" l0, Str.re_match "title:" l1, Str.re_match "file:" l2 with
     | Some i, Some t, Some f =>
         select w
         = (Return (<["file" := f]> (<["title" := t]> (<["id" := i]> ∅))), w')
     | _, _, _ =>
         select w = (Raise (HTTPException 404 "No node selected"), w')
     end)
  /\ (length (lines_of output) < 3 -> forall d, select w <> (Return d, w')).
Proof.
  intros Hask. rewrite (select_node_eq _ _ _ _ _ _ Hask). split.
  - intros Hlen.
    destruct (lookup_lt_is_Some_2 (lines_of output) 0 ltac:(lia)) as [l0 H0].
    destruct (lookup_lt_is_Some_2 (lines_of output) 1 ltac:(lia)) as [l1 H1].
    destruct (lookup_lt_is_Some_2 (lines_of output) 2 ltac:(lia)) as [l2 H2].
    exists l0, l1, l2. repeat (split; [assumption|]).
    destruct (Str.re_match "id:" l0) as [i|] eqn:M0;
      [|eapply select_node_parse_no_id; eauto].
    destruct (Str.re_match "title:" l1) as [t|] eqn:M1;
      [|eapply select_node_parse_no_title; eauto].
    destruct (Str.re_match "file:" l2) as [f|] eqn:M2;
      [|eapply select_node_parse_no_file; eauto].
    eapply select_node_parse_match; eauto.
  - intros Hlen d H. apply select_node_parse_inv in H
      as (l0 & l1 & l2 & i & t & f & _ & _ & _ & _ & H2 & _).
    apply lookup_lt_Some in H2. lia.
Qed.

(** X7. On an output of two lines or more [get_or_node_details] never
    raises [IndexError]. It ends in one of three ways: line 0 does not match
    and it logs and raises its 404; line 0 matches, line 1 does not, and it
    returns [None]; both match and it returns its dictionary. *)
Theorem details_two_lines or_node_id w w' output :
  ask (GND_head +:+ or_node_id +:+ GND_tail) false w = (Return output, w') ->
  2 <= length (lines_of output) ->
  exists l0 l1,
    lines_of output !! 0 = Some l0 /\ lines_of output !! 1 = Some l1 /\
    match Str.re_match "title:" l0, Str.re_match "file:" l1 with
    | None, _ =>
        details or_node_id w
        = (Raise (HTTPException 404 "No node found"),
           add_log ("Unable to parse output from emacsclient: " +:+ output) w')
    | Some _, None => details or_node_id w = (Return None, w')
    | Some t, Some f =>
        details or_node_id w
        = (Return (Some (<["html" := rewrite_links
                                       (Str.join (Str.chr Str.nl) (drop 2 (lines_of output)))
                                       (Pathlib.parent (Pathlib.of_str f))]>
                           (<["file" := f]> (<["title" := t]> ∅)))), w')
    end.
Proof.
  intros Hask Hlen. rewrite (details_eq _ _ _ _ _ _ _ _ Hask).
  destruct (lookup_lt_is_Some_2 (lines_of output) 0 ltac:(lia)) as [l0 H0].
  destruct (lookup_lt_is_Some_2 (lines_of output) 1 ltac:(lia)) as [l1 H1].
  exists l0, l1. split; [assumption|]. split; [assumption|].
  destruct (Str.re_match "title:" l0) as [t|] eqn:M0;
    [|eapply details_parse_no_title; eauto].
  destruct (Str.re_match "file:" l1) as [f|] eqn:M1.
  - eapply details_parse_match; eauto.
  - eapply details_parse_no_file; eauto.
Qed.

(** X8. The dictionary [select_node] returns has the keys [id], [title] and
    [file] and no other, and no value in it holds a newline. The dictionary
    [get_or_node_details] returns has the keys [title], [file] and [html]
    and no other, and its title and file are not empty and hold no
    newline. *)
Theorem returned_fields_are_single_lines w w' d :
  (select w = (Return d, w') ->
   dom d = {["id"; "title"; "file"]}
   /\ forall k v, d !! k = Some v -> Str.contains Str.nl v = false)
  /\ (forall or_node_id,
        details or_node_id w = (Return (Some d), w') ->
        dom d = {["title"; "file"; "html"]}
        /\ forall k v, k <> "html" -> d !! k = Some v ->
             v <> EmptyString /\ Str.contains Str.nl v = false).
Proof.
  split.
  - intros H. apply select_node_inv in H as (output & _ & H).
    apply select_node_parse_inv in H
      as (l0 & l1 & l2 & i & t & f & H0 & M0 & H1 & M1 & H2 & M2 & ->).
    split; [rewrite !dom_insert_L, dom_empty_L; set_solver|].
    pose proof (StrFacts.re_match_line_inv _ _ _
                  (StrFacts.split_lookup_clean _ _ _ _ H0) M0) as (_ & _ & C0).
    pose proof (StrFacts.re_match_line_inv _ _ _
                  (StrFacts.split_lookup_clean _ _ _ _ H1) M1) as (_ & _ & C1).
    pose proof (StrFacts.re_match_line_inv _ _ _
                  (StrFacts.split_lookup_clean _ _ _ _ H2) M2) as (_ & _ & C2).
    intros k v Hk.
    apply lookup_insert_Some in Hk as [[_ <-]|[_ Hk]]; [assumption|].
    apply lookup_insert_Some in Hk as [[_ <-]|[_ Hk]]; [assumption|].
    apply lookup_insert_Some in Hk as [[_ <-]|[_ Hk]]; [assumption|].
    rewrite lookup_empty in Hk. discriminate.
  - intros or_node_id H. apply details_inv in H as (output & _ & H).
    apply details_parse_inv in H as (_ & l0 & l1 & t & f & H0 & M0 & H1 & M1 & ->).
    split; [rewrite !dom_insert_L, dom_empty_L; set_solver|].
    pose proof (StrFacts.re_match_line_inv _ _ _
                  (StrFacts.split_lookup_clean _ _ _ _ H0) M0) as (_ & N0 & C0).
    pose proof (StrFacts.re_match_line_inv _ _ _
                  (StrFacts.split_lookup_clean _ _ _ _ H1) M1) as (_ & N1 & C1).
    intros k v Hne Hk.
    apply lookup_insert_Some in Hk as [[<- _]|[_ Hk]]; [congruence|].
    apply lookup_insert_Some in Hk as [[_ <-]|[_ Hk]]; [auto|].
    apply lookup_insert_Some in Hk as [[_ <-]|[_ Hk]]; [auto|].
    rewrite lookup_empty in Hk. discriminate.
Qed.

(** X9. Round trip with the snippet's format. When the bridge returns
    [id:], [title:] and [file:] lines made of three non-empty values with no
    newline in them, [select_node] returns those three values, also when more
    lines follow; and whenever [select_node] returns three values, the
    output of the bridge starts with those three lines. *)
Theorem select_node_round_trip w w' output i t f :
  ask ELISP_SN true w = (Return output, w') ->
  (i <> EmptyString -> t <> EmptyString -> f <> EmptyString ->
   Str.contains Str.nl i = false -> Str.contains Str.nl t = false ->
   Str.contains Str.nl f = false ->
   (output = "id:" +:+ i +:+ String Str.nl ("title:" +:+ t +:+ String Str.nl ("file:" +:+ f))
    \/ exists more,
         output = "id:" +:+ i +:+ String Str.nl ("title:" +:+ t +:+ String Str.nl
                    ("file:" +:+ f +:+ String Str.nl more))) ->
   select w = (Return (<["file" := f]> (<["title" := t]> (<["id" := i]> ∅))), w'))
  /\ (select w = (Return (<["file" := f]> (<["title" := t]> (<["id" := i]> ∅))), w') ->
      output = "id:" +:+ i +:+ String Str.nl ("title:" +:+ t +:+ String Str.nl ("file:" +:+ f))
      \/ exists more,
           output = "id:" +:+ i +:+ String Str.nl ("title:" +:+ t +:+ String Str.nl
                      ("file:" +:+ f +:+ String Str.nl more))).
Proof.
  intros Hask. rewrite (select_node_eq _ _ _ _ _ _ Hask). split.
  - intros Ni Nt Nf Ci Ct Cf Hout.
    assert (forall p v, Str.contains Str.nl p = false -> Str.contains Str.nl v = false ->
                        Str.contains Str.nl (p +:+ v) = false) as Hcat
      by (intros p v Hp Hv; now rewrite StrFacts.contains_app, Hp, Hv).
    assert (exists rest, lines_of output
                         = ("id:" +:+ i) :: ("title:" +:+ t) :: ("file:" +:+ f) :: rest)
      as [rest E].
    { destruct Hout as [->|[more ->]].
      - exists [].
        change (lines_of (("id:" +:+ i) +:+ String Str.nl
                            (("title:" +:+ t) +:+ String Str.nl ("file:" +:+ f)))
                = [("id:" +:+ i); ("title:" +:+ t); ("file:" +:+ f)]).
        rewrite !StrMore.split_sep.
        rewrite !StrMore.split_clean by (apply Hcat; [reflexivity|assumption]).
        reflexivity.
      - exists (lines_of more).
        change (lines_of (("id:" +:+ i) +:+ String Str.nl
                            (("title:" +:+ t) +:+ String Str.nl
                               (("file:" +:+ f) +:+ String Str.nl more)))
                = ("id:" +:+ i) :: ("title:" +:+ t) :: ("file:" +:+ f) :: lines_of more).
        rewrite !StrMore.split_sep.
        rewrite !StrMore.split_clean by (apply Hcat; [reflexivity|assumption]).
        reflexivity. }
    eapply select_node_parse_match; rewrite ?E; try reflexivity;
      now apply StrFacts.re_match_line.
  - intros H. apply select_node_parse_inv in H
      as (l0 & l1 & l2 & i' & t' & f' & H0 & M0 & H1 & M1 & H2 & M2 & E).
    assert (i' = i /\ t' = t /\ f' = f) as (-> & -> & ->).
    { assert (forall k, (<["file" := f]> (<["title" := t]> (<["id" := i]> ∅))
                           : gmap string string) !! k
                        = (<["file" := f']> (<["title" := t']> (<["id" := i']> ∅))
                             : gmap string string) !! k) as Hk by (intros; now rewrite E).
      pose proof (Hk "id") as Ki. pose proof (Hk "title") as Kt.
      pose proof (Hk "file") as Kf. vm_compute in Ki, Kt, Kf.
      repeat split; congruence. }
    destruct (StrFacts.re_match_line_inv _ _ _
                (StrFacts.split_lookup_clean _ _ _ _ H0) M0) as (-> & _).
    destruct (StrFacts.re_match_line_inv _ _ _
                (StrFacts.split_lookup_clean _ _ _ _ H1) M1) as (-> & _).
    destruct (StrFacts.re_match_line_inv _ _ _
                (StrFacts.split_lookup_clean _ _ _ _ H2) M2) as (-> & _).
    rewrite <- (StrFacts.join_split Str.nl output).
    destruct (lines_of output) as [|x0 [|x1 [|x2 rest]]]; try discriminate.
    injection H0 as ->. injection H1 as ->. injection H2 as ->.
    rewrite !StrFacts.join_cons.
    destruct (StrMore.join_tail (Str.chr Str.nl) ("file:" +:+ f) rest) as [->|[more ->]].
    + left. reflexivity.
    + right. exists more. reflexivity.
Qed.

(** X10. The directory handed to [rewrite_links] is the file's path up to
    its last slash: for a file line [file:dir/name], where [name] is a file
    name, the base directory is [Path(dir/)], whatever [name] is. *)
Theorem details_base_dir_is_file_dir or_node_id w w' output l0 t dir name :
  ask (GND_head +:+ or_node_id +:+ GND_tail) false w = (Return output, w') ->
  lines_of output !! 0 = Some l0 -> Str.re_match "title:" l0 = Some t ->
  lines_of output !! 1 = Some ("file:" +:+ dir +:+ String "/" name) ->
  name <> EmptyString -> name <> "." -> Str.contains "/" name = false ->
  details or_node_id w
  = (Return (Some (<["html" := rewrite_links
                                 (Str.join (Str.chr Str.nl) (drop 2 (lines_of output)))
                                 (Pathlib.of_str (dir +:+ "/"))]>
                     (<["file" := dir +:+ String "/" name]> (<["title" := t]> ∅)))), w').
Proof.
  intros Hask H0 M0 H1 Nn Nd Cn.
  rewrite (details_eq _ _ _ _ _ _ _ _ Hask).
  pose proof (StrFacts.split_lookup_clean _ _ _ _ H1) as C1.
  rewrite StrFacts.contains_app in C1. apply orb_false_iff in C1 as [_ C1].
  assert (Str.re_match "file:" ("file:" +:+ dir +:+ String "/" name)
          = Some (dir +:+ String "/" name)) as M1.
  { apply StrFacts.re_match_line; [assumption|]. destruct dir; discriminate. }
  rewrite (details_parse_match rewrite_links output w' _ _ _ _ H0 M0 H1 M1).
  rewrite StrMore.parent_of_dir_name; [reflexivity|assumption|].
  unfold Pathlib.keep.
  destruct (String.eqb_spec name ""); [contradiction|].
  destruct (String.eqb_spec name "."); [contradiction|]. reflexivity.
Qed.

End ParserMore.

(** * Further properties of the threads *)

Module PoolFacts.
Import Threads.

Section Pool.

Variable subprocess_run : list string -> FS -> outcome CompletedProcess * FS.
Variable decode_utf8 : list byte -> option string.
Variable tmp_name : FS -> string.

Local Abbreviation step := (thread_step subprocess_run decode_utf8 tmp_name).
Local Abbreviation pstep := (pool_step subprocess_run decode_utf8 tmp_name).

Lemma holder_exists pool :
  1 <= holders pool -> exists i p, pool !! i = Some p /\ holds p = true.
Proof.
  unfold holders. induction pool as [|x pool IH]; simpl; [lia|].
  destruct (holds x) eqn:Hx.
  - intros _. exists 0, x. auto.
  - intros H. destruct (IH H) as (i & p & Hi & Hp). exists (S i), p. auto.
Qed.

(** X12. No deadlock. With an editor client that always ends, in every
    state reached from calls that have just started, either every call has
    returned or raised, or some thread can take a step. *)
Theorem pool_never_stuck w0 pool0 w pool :
  (forall cmd fs, fst (subprocess_run cmd fs) <> Hang) ->
  mutex_locked w0 = false ->
  Forall (fun p => called p = true) pool0 ->
  reaches subprocess_run decode_utf8 tmp_name (w0, pool0) (w, pool) ->
  Forall (fun p => finished p = true) pool
  \/ exists s', pool_step subprocess_run decode_utf8 tmp_name (w, pool) s'.
Proof.
  intros Hends Hl Hc Hreach.
  pose proof (ThreadFacts.reaches_keeps_inv _ _ _ _ _ Hreach
                (ThreadFacts.initial_inv _ _ Hl Hc)) as I.
  unfold lock_inv in I. cbn [fst snd] in I.
  destruct (decide (Forall (fun p => finished p = true) pool)) as [|Hnot]; [now left|].
  right. apply not_Forall_Exists in Hnot; [|intros p; apply _].
  apply Exists_exists in Hnot as (p & Hin & Hp).
  apply list_elem_of_lookup in Hin as [i Hi].
  assert (forall j q, pool !! j = Some q -> is_Some (step w q) ->
                      exists s', pstep (w, pool) s') as Hgo.
  { intros j q Hj [[w' q'] Hs]. eexists. econstructor; eauto. }
  destruct (mutex_locked w) eqn:Hlock; cbn in I.
  - destruct (holder_exists pool ltac:(lia)) as (j & q & Hj & Hq).
    apply (Hgo j q Hj). destruct q as [| |tmp cmd|tmp r| |]; try discriminate.
    + cbn. unfold run. specialize (Hends cmd (files w)).
      destruct (subprocess_run cmd (files w)) as [[cp|e|] fs]; cbn in *; eauto.
      contradiction.
    + cbn. eauto.
  - apply (Hgo i p Hi).
    destruct p as [elisp cf|tmp cmd|tmp cmd|tmp r|tmp r|r].
    + cbn. eauto.
    + cbn. unfold acquire. rewrite Hlock. eauto.
    + pose proof (ThreadFacts.holders_member _ _ _ Hi eq_refl). lia.
    + pose proof (ThreadFacts.holders_member _ _ _ Hi eq_refl). lia.
    + destruct (ThreadFacts.step_checking subprocess_run decode_utf8 tmp_name w tmp r)
        as (out & w1 & E & _). rewrite E. eauto.
    + cbn in Hp. congruence.
Qed.

End Pool.

End PoolFacts.

Module TmpFacts.
Import Threads.

Section Pool.

Variable subprocess_run : list string -> FS -> outcome CompletedProcess * FS.
Variable decode_utf8 : list byte -> option string.
Variable tmp_name : FS -> string.

(** [tempfile] picks a name no file has; the editor client removes no
    file. *)
Hypothesis tmp_name_fresh : forall fs, names fs !! tmp_name fs = None.
Hypothesis editor_keeps_files :
  forall cmd fs name,
    is_Some (names fs !! name) -> is_Some (names (snd (subprocess_run cmd fs)) !! name).

Local Abbreviation step := (thread_step subprocess_run decode_utf8 tmp_name).
Local Abbreviation pstep := (pool_step subprocess_run decode_utf8 tmp_name).

(** A step makes the thread's file, keeps the names there are, or leaves
    the thread's file behind, removing at most its name. *)
Lemma step_tmp w p w' p' :
  step w p = Some (w', p') ->
  (live_tmp p = None /\ live_tmp p' = Some (tmp_name (files w))
   /\ forall name, is_Some (names (files w) !! name) \/ name = tmp_name (files w) ->
                   is_Some (names (files w') !! name))
  \/ (live_tmp p' = live_tmp p
      /\ forall name, is_Some (names (files w) !! name) ->
                      is_Some (names (files w') !! name))
  \/ (exists tmp, live_tmp p = Some tmp /\ live_tmp p' = None
                  /\ forall name, name <> tmp ->
                       is_Some (names (files w) !! name) ->
                       is_Some (names (files w') !! name)).
Proof.
  destruct p as [elisp cf|tmp cmd|tmp cmd|tmp r|tmp r|r]; intros H.
  - cbn in H. injection H as <- <-. left. split; [reflexivity|]. split; [reflexivity|].
    intros name Hn. cbn.
    destruct (decide (tmp_name (files w) = name)) as [<-|Hne].
    + rewrite lookup_insert_eq. eauto.
    + rewrite lookup_insert_ne by assumption. destruct Hn; [assumption|congruence].
  - cbn in H. unfold acquire in H. destruct (mutex_locked w); [discriminate|].
    injection H as <- <-. right; left. auto.
  - cbn in H. unfold run in H. pose proof (editor_keeps_files cmd (files w)) as K.
    destruct (subprocess_run cmd (files w)) as [[cp|e|] fs]; try discriminate;
      injection H as <- <-; right; left; auto.
  - cbn in H. injection H as <- <-. right; left. auto.
  - destruct (ThreadFacts.step_checking subprocess_run decode_utf8 tmp_name w tmp r)
      as (out & w1 & E & _ & _ & Hf). rewrite E in H. injection H as <- <-.
    right; right. exists (name tmp). split; [reflexivity|]. split; [reflexivity|].
    intros n Hne Hn. destruct Hf as [->| ->]; [assumption|].
    cbn. now rewrite lookup_delete_ne by congruence.
  - discriminate.
Qed.

Lemma step_keeps_tmp_inv w pool i p w' p' :
  tmp_inv (w, pool) -> pool !! i = Some p -> step w p = Some (w', p') ->
  tmp_inv (w', <[i := p']> pool).
Proof.
  intros [Ha Hb] Hi Hs. cbn [fst snd] in *.
  destruct (step_tmp _ _ _ _ Hs) as [(Lp & Lp' & Hf)|[(Lp' & Hf)|(tmp & Lp & Lp' & Hf)]].
  - (* the thread makes its file *)
    split.
    + intros k q t Hk Hq. cbn [fst snd] in *.
      apply list_lookup_insert_Some in Hk as [(<- & <- & _)|[Hne Hk]].
      * rewrite Lp' in Hq. injection Hq as <-. apply Hf. now right.
      * apply Hf. left. eapply Ha; eauto.
    + intros k l q q' t Hk Hl Hq Hq'. cbn [fst snd] in *.
      apply list_lookup_insert_Some in Hk as [(<- & <- & _)|[Hnk Hk]];
        apply list_lookup_insert_Some in Hl as [(<- & <- & _)|[Hnl Hl]];
        try reflexivity.
      * rewrite Lp' in Hq. injection Hq as <-.
        destruct (Ha l q' _ Hl Hq') as [v Hv]. rewrite tmp_name_fresh in Hv.
        discriminate.
      * rewrite Lp' in Hq'. injection Hq' as <-.
        destruct (Ha k q _ Hk Hq) as [v Hv]. rewrite tmp_name_fresh in Hv.
        discriminate.
      * eapply Hb; eauto.
  - (* the names there are stay *)
    split.
    + intros k q t Hk Hq. cbn [fst snd] in *. apply Hf.
      apply list_lookup_insert_Some in Hk as [(<- & <- & _)|[Hne Hk]].
      * rewrite Lp' in Hq. eapply Ha; eauto.
      * eapply Ha; eauto.
    + intros k l q q' t Hk Hl Hq Hq'. cbn [fst snd] in *.
      apply list_lookup_insert_Some in Hk as [(<- & <- & _)|[Hnk Hk]];
        apply list_lookup_insert_Some in Hl as [(<- & <- & _)|[Hnl Hl]];
        try reflexivity.
      * rewrite Lp' in Hq. exact (Hb _ _ _ _ _ Hi Hl Hq Hq').
      * rewrite Lp' in Hq'. exact (Hb _ _ _ _ _ Hk Hi Hq Hq').
      * eapply Hb; eauto.
  - (* the thread leaves its file behind *)
    split.
    + intros k q t Hk Hq. cbn [fst snd] in *.
      apply list_lookup_insert_Some in Hk as [(<- & <- & _)|[Hne Hk]].
      * rewrite Lp' in Hq. discriminate.
      * apply Hf; [|eapply Ha; eauto].
        intros ->. apply Hne. exact (Hb _ _ _ _ _ Hi Hk Lp Hq).
    + intros k l q q' t Hk Hl Hq Hq'. cbn [fst snd] in *.
      apply list_lookup_insert_Some in Hk as [(<- & <- & _)|[Hnk Hk]];
        apply list_lookup_insert_Some in Hl as [(<- & <- & _)|[Hnl Hl]];
        try reflexivity.
      * rewrite Lp' in Hq. discriminate.
      * rewrite Lp' in Hq'. discriminate.
      * eapply Hb; eauto.
Qed.

(** X13. When [tempfile] picks names no file has and the editor client
    removes no file, in every state reached from calls that have just
    started, each call in progress has its temporary file on disk and no two
    calls in progress have the same file. *)
Theorem calls_have_their_own_file w0 pool0 w pool :
  Forall (fun p => called p = true) pool0 ->
  reaches subprocess_run decode_utf8 tmp_name (w0, pool0) (w, pool) ->
  (forall i p tmp, pool !! i = Some p -> live_tmp p = Some tmp ->
     is_Some (names (files w) !! tmp))
  /\ (forall i j p q tmp, pool !! i = Some p -> pool !! j = Some q ->
        live_tmp p = Some tmp -> live_tmp q = Some tmp -> i = j).
Proof.
  intros Hc Hreach.
  assert (tmp_inv (w0, pool0)) as I0.
  { assert (forall i p tmp, pool0 !! i = Some p -> live_tmp p = Some tmp -> False) as N.
    { intros i p tmp Hi Hp. rewrite Forall_lookup in Hc. specialize (Hc i p Hi).
      destruct p; discriminate. }
    split; cbn [fst snd]; intros; exfalso; eauto. }
  assert (forall s s', reaches subprocess_run decode_utf8 tmp_name s s' ->
                       tmp_inv s -> tmp_inv s') as K.
  { unfold reaches. induction 1 as [|x y z Hxy _ IH]; [auto|].
    intros I. apply IH. destruct Hxy. eapply step_keeps_tmp_inv; eauto. }
  exact (K _ _ Hreach I0).
Qed.

End Pool.

End TmpFacts.

(** * Calls in sequence, and what the parser reads *)

(** X15. A call that returned or raised does not block the next one: the
    next call of [ask_emacs] fails to come back only if its own subprocess
    never ends. *)
Theorem next_call_is_not_blocked subprocess_run decode_utf8 tmp_name
    elisp create_frame w r w1 elisp' create_frame' :
  ask_emacs subprocess_run decode_utf8 tmp_name elisp create_frame w = (r, w1) ->
  r <> Hang ->
  fst (ask_emacs subprocess_run decode_utf8 tmp_name elisp' create_frame' w1) = Hang ->
  fst (subprocess_run (command elisp' create_frame' (tmp_name (files w1)))
                      (create (tmp_name (files w1)) (files w1))) = Hang.
Proof.
  intros H Hr Hhang.
  pose proof (ask_emacs_releases _ _ _ _ _ _ _ _ H Hr) as Hfree.
  rewrite (ask_emacs_eq _ _ _ _ _ _ Hfree) in Hhang.
  destruct (subprocess_run _ _) as [[cp|e|] fs]; [| |reflexivity]; exfalso;
    revert Hhang; apply tmp_exit_not_hang.
  - destruct (stderr cp); [destruct (decode_utf8 _)|]; discriminate.
  - discriminate.
Qed.

(** X16. [select_node] reads lines 0 to 2 of the output and nothing else:
    two editors whose outputs agree on their first three lines get the same
    result, each in the world its own call of the bridge leaves. *)
Theorem select_node_reads_three_lines run1 run2 decode_utf8 tmp_name w w1 w2 o1 o2 :
  ask_emacs run1 decode_utf8 tmp_name ELISP_SN true w = (Return o1, w1) ->
  ask_emacs run2 decode_utf8 tmp_name ELISP_SN true w = (Return o2, w2) ->
  take 3 (Str.split Str.nl o1) = take 3 (Str.split Str.nl o2) ->
  fst (select_node run1 decode_utf8 tmp_name w)
  = fst (select_node run2 decode_utf8 tmp_name w)
  /\ snd (select_node run1 decode_utf8 tmp_name w) = w1
  /\ snd (select_node run2 decode_utf8 tmp_name w) = w2.
Proof.
  intros H1 H2 Ht.
  rewrite (select_node_eq _ _ _ _ _ _ H1), (select_node_eq _ _ _ _ _ _ H2).
  assert (forall i, i < 3 -> Str.split Str.nl o1 !! i = Str.split Str.nl o2 !! i) as L.
  { intros i Hi. rewrite <- (lookup_take_lt (Str.split Str.nl o1) 3 i Hi).
    rewrite <- (lookup_take_lt (Str.split Str.nl o2) 3 i Hi). now rewrite Ht. }
  split; [|split; apply select_node_parse_world].
  unfold_parse. rewrite (L 0), (L 1), (L 2) by lia.
  destruct (Str.split Str.nl o2 !! 0) as [l0|]; [|reflexivity].
  destruct (Str.re_match "id:" l0); [|reflexivity].
  destruct (Str.split Str.nl o2 !! 1) as [l1|]; [|reflexivity].
  destruct (Str.re_match "title:" l1); [|reflexivity].
  destruct (Str.split Str.nl o2 !! 2) as [l2|]; [|reflexivity].
  destruct (Str.re_match "file:" l2); reflexivity.
Qed.

(** * More concrete runs *)

Lemma demo_tmp_name_fresh fs : names fs !! Demo.tmp_name fs = None.
Proof.
  apply not_elem_of_dom. unfold Demo.tmp_name. apply fresh_string_of_set_fresh.
Qed.

Lemma demo_editor_keeps_files content err cmd fs name :
  is_Some (names fs !! name) ->
  is_Some (names (snd (Demo.editor content err cmd fs)) !! name).
Proof.
  intros H. unfold Demo.editor, write_name. cbn [snd].
  destruct (names fs !! Demo.target cmd) eqn:E; cbn [names]; [assumption|].
  destruct (decide (Demo.target cmd = name)) as [<-|Hne].
  - rewrite lookup_insert_eq. eauto.
  - now rewrite lookup_insert_ne.
Qed.

Lemma ask_emacs_leaves_files_witness :
  names (files (snd (ask_emacs (Demo.editor "3" "") Demo.decode_ascii Demo.tmp_name
                       "(+ 1 2)" false
                       {| files := {| names := {["/home/u/note.org" := 0]};
                                      data := {[0 := []]} |};
                          mutex_locked := false; error_log := [] |})))
  = {["/home/u/note.org" := 0]}
  /\ forall name,
       read_name
         (files (snd (ask_emacs (Demo.editor "3" "") Demo.decode_ascii Demo.tmp_name
                        "(+ 1 2)" false
                        {| files := {| names := {["/home/u/note.org" := 0]};
                                       data := {[0 := []]} |};
                           mutex_locked := false; error_log := [] |}))) name
       = read_name {| names := {["/home/u/note.org" := 0]}; data := {[0 := []]} |} name.
Proof.
  refine (ask_emacs_leaves_files
            (Demo.editor "3" "") Demo.decode_ascii Demo.tmp_name "(+ 1 2)" false
            {| files := {| names := {["/home/u/note.org" := 0]}; data := {[0 := []]} |};
               mutex_locked := false; error_log := [] |}
            (Return (Demo.completed ""))
            {| names := <["/tmp/tmp" := 1]> {["/home/u/note.org" := 0]};
               data := <[1 := String.list_byte_of_string "3"]> {[0 := []]} |}
            eq_refl _ _ _ _).
  - vm_compute. reflexivity.
  - vm_compute. reflexivity.
  - discriminate.
  - intros name Hne. cbn [files names] in *.
    change (Demo.tmp_name _) with "/tmp/tmp" in Hne. split.
    + rewrite lookup_insert_ne by congruence. reflexivity.
    + unfold read_name. cbn [names]. rewrite lookup_insert_ne by congruence.
      destruct (({["/home/u/note.org" := 0]} : gmap string nat) !! name) as [ino|] eqn:E;
        [|reflexivity].
      apply lookup_singleton_Some in E as [_ <-]. reflexivity.
Defined.

Lemma hung_editor_blocks_later_calls_witness :
  fst (select_node (fun _ fs => (Hang, fs)) Demo.decode_ascii Demo.tmp_name
         (snd (ask_emacs (fun _ fs => (Hang, fs)) Demo.decode_ascii Demo.tmp_name
                 "(sleep-for 1000000)" false Demo.world)))
  = Hang.
Proof.
  exact (proj1 (proj2 (proj2 (proj2
           (hung_editor_blocks_later_calls
              (fun _ fs => (Hang, fs)) Demo.decode_ascii Demo.tmp_name
              Demo.rewrite_links "(sleep-for 1000000)" false Demo.world
              eq_refl eq_refl))))).
Defined.

Lemma editor_error_reaches_callers_witness :
  select_node (Demo.editor "id:abc
title:t
file:f" "*ERROR*: Quit") Demo.decode_ascii Demo.tmp_name Demo.world
  = (Raise (HTTPException 404 "*ERROR*: Quit"), Demo.left "id:abc
title:t
file:f").
Proof.
  refine (proj1 (editor_error_reaches_callers
                   (Demo.editor "id:abc
title:t
file:f" "*ERROR*: Quit") Demo.decode_ascii Demo.tmp_name Demo.rewrite_links
                   Demo.world (Demo.completed "*ERROR*: Quit")
                   {| names := {["/tmp/tmp" := 0]};
                      data := {[0 := String.list_byte_of_string "id:abc
title:t
file:f"]} |} "6f1a2c" eq_refl _ _) _).
  - discriminate.
  - vm_compute. eauto.
  - vm_compute. reflexivity.
Defined.

Lemma select_node_three_lines_witness :
  select_node (Demo.editor "id:a
title:b
file:c" "") Demo.decode_ascii Demo.tmp_name Demo.world
  = (Return (<["file" := "c"]> (<["title" := "b"]> (<["id" := "a"]> ∅))), Demo.left "id:a
title:b
file:c").
Proof.
  destruct (proj1 (select_node_three_lines
                     (Demo.editor "id:a
title:b
file:c" "") Demo.decode_ascii Demo.tmp_name Demo.world (Demo.left "id:a
title:b
file:c") "id:a
title:b
file:c" eq_refl) (le_n 3)) as (l0 & l1 & l2 & H0 & H1 & H2 & H).
  injection H0 as <-. injection H1 as <-. injection H2 as <-. exact H.
Defined.

Lemma details_two_lines_witness :
  get_or_node_details (Demo.editor "title:b
nope" "") Demo.decode_ascii Demo.tmp_name Demo.rewrite_links "6f1a2c" Demo.world
  = (Return None, Demo.left "title:b
nope").
Proof.
  destruct (details_two_lines
              (Demo.editor "title:b
nope" "") Demo.decode_ascii Demo.tmp_name Demo.rewrite_links "6f1a2c"
              Demo.world (Demo.left "title:b
nope") "title:b
nope" eq_refl (le_n 2)) as (l0 & l1 & H0 & H1 & H).
  injection H0 as <-. injection H1 as <-. exact H.
Defined.

Lemma returned_fields_are_single_lines_witness :
  dom (<["file" := "c"]> (<["title" := "b"]> (<["id" := "a"]> ∅)) : gmap string string)
  = {["id"; "title"; "file"]}.
Proof.
  refine (proj1 (proj1 (returned_fields_are_single_lines
                          (Demo.editor "id:a
title:b
file:c" "") Demo.decode_ascii Demo.tmp_name Demo.rewrite_links
                          Demo.world (Demo.left "id:a
title:b
file:c")
                          (<["file" := "c"]> (<["title" := "b"]> (<["id" := "a"]> ∅))))
                   _)).
  vm_compute. reflexivity.
Defined.

Lemma select_node_round_trip_witness :
  select_node (Demo.editor "id:a
title:b
file:c
and more" "") Demo.decode_ascii Demo.tmp_name Demo.world
  = (Return (<["file" := "c"]> (<["title" := "b"]> (<["id" := "a"]> ∅))), Demo.left "id:a
title:b
file:c
and more").
Proof.
  refine (proj1 (select_node_round_trip
                   (Demo.editor "id:a
title:b
file:c
and more" "") Demo.decode_ascii Demo.tmp_name Demo.world (Demo.left "id:a
title:b
file:c
and more") "id:a
title:b
file:c
and more" "a" "b" "c" _) _ _ _ eq_refl eq_refl eq_refl
            (or_intror (ex_intro _ "and more" eq_refl))); try discriminate.
  vm_compute. reflexivity.
Defined.

Lemma details_base_dir_is_file_dir_witness :
  get_or_node_details (Demo.editor "title:T
file:/a/b.org
<p>x</p>" "") Demo.decode_ascii Demo.tmp_name Demo.rewrite_links "6f1a2c" Demo.world
  = (Return (Some (<["html" := Demo.rewrite_links "<p>x</p>" (Pathlib.of_str "/a/")]>
                     (<["file" := "/a/b.org"]> (<["title" := "T"]> ∅)))), Demo.left "title:T
file:/a/b.org
<p>x</p>").
Proof.
  refine (details_base_dir_is_file_dir
            (Demo.editor "title:T
file:/a/b.org
<p>x</p>" "") Demo.decode_ascii Demo.tmp_name Demo.rewrite_links "6f1a2c"
            Demo.world (Demo.left "title:T
file:/a/b.org
<p>x</p>") "title:T
file:/a/b.org
<p>x</p>" "title:T" "T" "/a" "b.org" _ eq_refl eq_refl eq_refl _ _ eq_refl);
    try discriminate.
  vm_compute. reflexivity.
Defined.

Lemma pool_never_stuck_witness :
  Forall (fun p => Threads.finished p = true)
    (snd (Threads.run_schedule (Demo.editor "3" "") Demo.decode_ascii Demo.tmp_name
            [0; 0; 1; 1; 1]
            (Demo.world, [Threads.Called "(a)" false; Threads.Called "(b)" true])))
  \/ exists s',
       Threads.pool_step (Demo.editor "3" "") Demo.decode_ascii Demo.tmp_name
         (fst (Threads.run_schedule (Demo.editor "3" "") Demo.decode_ascii Demo.tmp_name
                 [0; 0; 1; 1; 1]
                 (Demo.world, [Threads.Called "(a)" false; Threads.Called "(b)" true])),
          snd (Threads.run_schedule (Demo.editor "3" "") Demo.decode_ascii Demo.tmp_name
                 [0; 0; 1; 1; 1]
                 (Demo.world, [Threads.Called "(a)" false; Threads.Called "(b)" true])))
         s'.
Proof.
  refine (PoolFacts.pool_never_stuck
            (Demo.editor "3" "") Demo.decode_ascii Demo.tmp_name
            Demo.world [Threads.Called "(a)" false; Threads.Called "(b)" true]
            _ _ _ eq_refl _ _).
  - intros cmd fs. discriminate.
  - repeat constructor.
  - exact (ThreadFacts.run_schedule_reaches
             (Demo.editor "3" "") Demo.decode_ascii Demo.tmp_name
             [0; 0; 1; 1; 1]
             (Demo.world, [Threads.Called "(a)" false; Threads.Called "(b)" true])).
Defined.

Lemma calls_have_their_own_file_witness :
  (forall i p tmp,
     [Threads.Running (mkTmp "/tmp/tmp" 0) (command "(a)" false "/tmp/tmp");
      Threads.AtLock (mkTmp "/tmp/tmp0" 1) (command "(b)" true "/tmp/tmp0")] !! i = Some p ->
     Threads.live_tmp p = Some tmp ->
     is_Some ((<["/tmp/tmp0" := 1]> {["/tmp/tmp" := 0]} : gmap string nat) !! tmp))
  /\ (forall i j p q tmp,
        [Threads.Running (mkTmp "/tmp/tmp" 0) (command "(a)" false "/tmp/tmp");
         Threads.AtLock (mkTmp "/tmp/tmp0" 1) (command "(b)" true "/tmp/tmp0")] !! i = Some p ->
        [Threads.Running (mkTmp "/tmp/tmp" 0) (command "(a)" false "/tmp/tmp");
         Threads.AtLock (mkTmp "/tmp/tmp0" 1) (command "(b)" true "/tmp/tmp0")] !! j = Some q ->
        Threads.live_tmp p = Some tmp -> Threads.live_tmp q = Some tmp -> i = j).
Proof.
  refine (TmpFacts.calls_have_their_own_file
            (Demo.editor "3" "") Demo.decode_ascii Demo.tmp_name
            demo_tmp_name_fresh (demo_editor_keeps_files "3" "")
            Demo.world [Threads.Called "(a)" false; Threads.Called "(b)" true]
            {| files := {| names := <["/tmp/tmp0" := 1]> {["/tmp/tmp" := 0]};
                           data := <[1 := []]> {[0 := []]} |};
               mutex_locked := true; error_log := [] |}
            _ _ _).
  - repeat constructor.
  - exact (ThreadFacts.run_schedule_reaches
             (Demo.editor "3" "") Demo.decode_ascii Demo.tmp_name
             [0; 0; 1; 1; 1]
             (Demo.world, [Threads.Called "(a)" false; Threads.Called "(b)" true])).
Defined.

Lemma next_call_is_not_blocked_witness :
  fst ((fun (cmd : list string) (fs : FS) =>
          match cmd with
          | [_; _; _] => (Raise (OSError "emacsclient"), fs)
          | _ => (@Hang CompletedProcess, fs)
          end)
         (command "(b)" true "/tmp/tmp")
         (create "/tmp/tmp" {| names := ∅; data := {[0 := []]} |}))
  = Hang.
Proof.
  refine (next_call_is_not_blocked
            (fun cmd fs => match cmd with
                           | [_; _; _] => (Raise (OSError "emacsclient"), fs)
                           | _ => (Hang, fs)
                           end)
            Demo.decode_ascii Demo.tmp_name
            "(a)" false Demo.world (Raise (OSError "emacsclient")) (Demo.left "")
            "(b)" true _ _ _).
  - vm_compute. reflexivity.
  - discriminate.
  - vm_compute. reflexivity.
Defined.

Lemma select_node_reads_three_lines_witness :
  fst (select_node (Demo.editor "id:a
title:b
file:c
one" "") Demo.decode_ascii Demo.tmp_name Demo.world)
  = fst (select_node (Demo.editor "id:a
title:b
file:c
two
three" "") Demo.decode_ascii Demo.tmp_name Demo.world).
Proof.
  refine (proj1 (select_node_reads_three_lines
            (Demo.editor "id:a
title:b
file:c
one" "") (Demo.editor "id:a
title:b
file:c
two
three" "") Demo.decode_ascii Demo.tmp_name Demo.world (Demo.left "id:a
title:b
file:c
one") (Demo.left "id:a
title:b
file:c
two
three") "id:a
title:b
file:c
one" "id:a
title:b
file:c
two
three" _ _ eq_refl)).
  - vm_compute. reflexivity.
  - vm_compute. reflexivity.
Defined.
